(** * op3_demo ball tracker: a shallow embedding of [ball_tracker.cpp]

    The tracker of [src/op3_demo/src/soccer/ball_tracker.cpp] keeps the
    largest circle reported by the ball detector, and on every control
    period ([processTracking]) turns it into a pan/tilt offset for the head
    through a PD filter, or asks the head for a scan when the ball has been
    missing for too long.

    The C++ works on [double] and [int].  The embedding is written once
    over an interface of the [double] operations the file uses
    ([DoubleOps]); it is instantiated by IEEE binary64 ([Binary64], the
    kernel's primitive floats, with the two libm calls left open) and by the
    real numbers ([RealOps], the same formulas without rounding). *)

From Stdlib Require Import ZArith List String Bool Lia Permutation.
From Stdlib Require Import Reals Lra.
From Stdlib Require Import Uint63 Floats.
Import ListNotations.

Set Implicit Arguments.

(** ** The arithmetic of [double] *)

(** Every operation on [double] that [ball_tracker.cpp] performs. *)
Class DoubleOps (D : Type) : Type := {
  dint : Z -> D;             (* an [int] converted to [double] *)
  ddec : Z -> nat -> D;      (* the decimal literal [m * 10^-k] *)
  dM_PI : D;                 (* the macro [M_PI] *)
  dadd : D -> D -> D;
  dsub : D -> D -> D;
  dmul : D -> D -> D;
  ddiv : D -> D -> D;
  dneg : D -> D;
  dfabs : D -> D;            (* [fabs] *)
  dle : D -> D -> bool;      (* [<=] *)
  dlt : D -> D -> bool;      (* [<] *)
  datan : D -> D;            (* [atan] *)
  dtan : D -> D              (* [tan] *)
}.

Declare Scope dbl_scope.
Delimit Scope dbl_scope with dbl.
Notation "a + b" := (dadd a b) : dbl_scope.
Notation "a - b" := (dsub a b) : dbl_scope.
Notation "a * b" := (dmul a b) : dbl_scope.
Notation "a / b" := (ddiv a b) : dbl_scope.
Notation "- a" := (dneg a) : dbl_scope.
Notation "a <=? b" := (dle a b) : dbl_scope.
Notation "a <? b" := (dlt a b) : dbl_scope.
(** [a >= b] on doubles is [b <= a]. *)
Notation "a >=? b" := (dle b a) (at level 70) : dbl_scope.

(** ** Messages and clock *)

(** [geometry_msgs::Point], the type of a detected circle: [x], [y] are the
    normalised image coordinates and [z] the size of the circle. *)
Module Point.
Record t (D : Type) : Type := mk { x : D; y : D; z : D }.
Arguments mk {D} _ _ _.
End Point.

(** [ros::Time] and [ros::Duration]: seconds and nanoseconds. *)
Module Time.
Record t : Type := mk { sec : Z; nsec : Z }.

Definition toNSec (a : t) : Z := (sec a * 1000000000 + nsec a)%Z.

(** [a - b] of roscpp: the difference in nanoseconds, normalised so that
    [0 <= nsec < 10^9]. *)
Definition sub (a b : t) : t :=
  let d := (toNSec a - toNSec b)%Z in
  mk (d / 1000000000)%Z (d mod 1000000000)%Z.

Definition zero : t := mk 0%Z 0%Z.
End Time.

(** [enum TrackingStatus]. *)
Inductive TrackingStatus : Type := NotFound | Waiting | Found.

(** What the tracker publishes: a [sensor_msgs::JointState] on
    [head_joint_pub_] or a [std_msgs::String] on [head_scan_pub_]. *)
Inductive Published (D : Type) : Type :=
| head_joint_pub_ (name : list string) (position : list D)
| head_scan_pub_ (data : string).
Arguments head_joint_pub_ {D} _ _.
Arguments head_scan_pub_ {D} _.

(** The two commands of the specification. *)
Definition AngleOffset {D : Type} (pan tilt : D) : Published D :=
  head_joint_pub_ ["head_pan"%string; "head_tilt"%string] [pan; tilt].
Definition ScanRequest {D : Type} : Published D :=
  head_scan_pub_ "scan"%string.

Definition is_scan {D : Type} (m : Published D) : bool :=
  match m with head_scan_pub_ _ => true | head_joint_pub_ _ _ => false end.

(** ** The tracker *)

(** The mutable members of [class BallTracker]. *)
Record BallTracker (D : Type) : Type := mkBallTracker {
  use_head_scan_ : bool;
  count_not_found_ : Z;
  on_tracking_ : bool;
  current_ball_pan_ : D;
  current_ball_tilt_ : D;
  current_ball_bottom_ : D;
  tracking_status_ : TrackingStatus;
  ball_position_ : Point.t D;
  prev_time_ : Time.t
}.

Section Tracker.
Context {D : Type} {ops : DoubleOps D}.
Local Open Scope dbl_scope.

Implicit Types (s : BallTracker D) (c : Point.t D).

(** The constants set by the constructor. *)
Definition FOV_WIDTH : D := ddec 264 1 * dM_PI / dint 180.
Definition FOV_HEIGHT : D := ddec 216 1 * dM_PI / dint 180.
Definition NOT_FOUND_THRESHOLD : Z := 50.
Definition WAITING_THRESHOLD : Z := 5.

(** [BallTracker::BallTracker()]; [ball_position_] and [prev_time_] are
    value-initialised. *)
Definition init : BallTracker D :=
  {| use_head_scan_ := true;
     count_not_found_ := 0;
     on_tracking_ := false;
     current_ball_pan_ := dint 0;
     current_ball_tilt_ := dint 0;
     current_ball_bottom_ := dint 0;
     tracking_status_ := NotFound;
     ball_position_ := Point.mk (dint 0) (dint 0) (dint 0);
     prev_time_ := Time.zero |}.

(** Assignments to single members. *)
Definition set_use_head_scan_ (b : bool) s : BallTracker D :=
  mkBallTracker b (count_not_found_ s) (on_tracking_ s)
    (current_ball_pan_ s) (current_ball_tilt_ s) (current_ball_bottom_ s)
    (tracking_status_ s) (ball_position_ s) (prev_time_ s).
Definition set_count_not_found_ (n : Z) s : BallTracker D :=
  mkBallTracker (use_head_scan_ s) n (on_tracking_ s)
    (current_ball_pan_ s) (current_ball_tilt_ s) (current_ball_bottom_ s)
    (tracking_status_ s) (ball_position_ s) (prev_time_ s).
Definition set_on_tracking_ (b : bool) s : BallTracker D :=
  mkBallTracker (use_head_scan_ s) (count_not_found_ s) b
    (current_ball_pan_ s) (current_ball_tilt_ s) (current_ball_bottom_ s)
    (tracking_status_ s) (ball_position_ s) (prev_time_ s).
Definition set_current_ball (pan tilt bottom : D) s : BallTracker D :=
  mkBallTracker (use_head_scan_ s) (count_not_found_ s) (on_tracking_ s)
    pan tilt bottom
    (tracking_status_ s) (ball_position_ s) (prev_time_ s).
Definition set_tracking_status_ (t : TrackingStatus) s : BallTracker D :=
  mkBallTracker (use_head_scan_ s) (count_not_found_ s) (on_tracking_ s)
    (current_ball_pan_ s) (current_ball_tilt_ s) (current_ball_bottom_ s)
    t (ball_position_ s) (prev_time_ s).
Definition set_ball_position_ c s : BallTracker D :=
  mkBallTracker (use_head_scan_ s) (count_not_found_ s) (on_tracking_ s)
    (current_ball_pan_ s) (current_ball_tilt_ s) (current_ball_bottom_ s)
    (tracking_status_ s) c (prev_time_ s).
Definition set_prev_time_ (t : Time.t) s : BallTracker D :=
  mkBallTracker (use_head_scan_ s) (count_not_found_ s) (on_tracking_ s)
    (current_ball_pan_ s) (current_ball_tilt_ s) (current_ball_bottom_ s)
    (tracking_status_ s) (ball_position_ s) t.
(** [ball_position_.z = v]. *)
Definition set_ball_z (v : D) s : BallTracker D :=
  set_ball_position_
    (Point.mk (Point.x (ball_position_ s)) (Point.y (ball_position_ s)) v) s.

(** One iteration of the loop of [ballPositionCallback]: the held circle
    stays when [ball_position_.z >= circles[idx].z]. *)
Definition keep_larger (held c : Point.t D) : Point.t D :=
  if Point.z held >=? Point.z c then held else c.

(** [ballPositionCallback], on the member [ball_position_] alone. *)
Definition largest_circle (held : Point.t D) (circles : list (Point.t D))
  : Point.t D :=
  fold_left keep_larger circles held.

Definition ballPositionCallback (circles : list (Point.t D)) s
  : BallTracker D :=
  set_ball_position_ (largest_circle (ball_position_ s) circles) s.

(** [publishHeadJoint]: nothing is published when both angles are below
    one degree. *)
Definition min_angle : D := dint 1 * dM_PI / dint 180.

Definition publishHeadJoint (pan tilt : D) : list (Published D) :=
  if (dfabs pan <? min_angle) && (dfabs tilt <? min_angle) then []
  else [AngleOffset pan tilt].

(** [scanBall]. *)
Definition scanBall s : list (Published D) :=
  if negb (use_head_scan_ s) then [] else [ScanRequest].

(** The angle of the head towards an image coordinate,
    [-atan(v * tan(fov))]. *)
Definition fov_error (v fov : D) : D := - datan (v * dtan fov).

Definition startTracking s : BallTracker D := set_on_tracking_ true s.

Definition stopTracking s : BallTracker D * list (Published D) :=
  let s := set_on_tracking_ false s in
  let x_error := fov_error (Point.x (ball_position_ s)) FOV_WIDTH in
  let y_error := fov_error (Point.y (ball_position_ s)) FOV_HEIGHT in
  (s, publishHeadJoint x_error y_error).

Definition setUsingHeadScan (use_scan : bool) s : BallTracker D :=
  set_use_head_scan_ use_scan s.

Definition ballTrackerCommandCallback (data : string) s
  : BallTracker D * list (Published D) :=
  if String.eqb data "start" then (startTracking s, [])
  else if String.eqb data "stop" then stopTracking s
  else if String.eqb data "toggle_start" then
    if negb (on_tracking_ s) then (startTracking s, [])
    else stopTracking s
  else (s, []).

(** The first half of [processTracking] ("check ball position"): the
    status of this period, the tracker with its counter updated, and
    the scan request if one was sent. *)
Definition check_ball_position s
  : TrackingStatus * BallTracker D * list (Published D) :=
  if Point.z (ball_position_ s) <=? dint 0 then
    let s := set_count_not_found_ (count_not_found_ s + 1)%Z s in
    if (count_not_found_ s <? WAITING_THRESHOLD)%Z then
      match tracking_status_ s with
      | Found | Waiting => (Waiting, s, [])
      | NotFound => (NotFound, s, [])
      end
    else if (NOT_FOUND_THRESHOLD <? count_not_found_ s)%Z then
      (NotFound, set_count_not_found_ 0 s, scanBall s)
    else
      (NotFound, s, [])
  else
    (Found, set_count_not_found_ 0 s, []).

(** [delta_time = dur.nsec * 0.000000001 + dur.sec]. *)
Definition delta_time (dur : Time.t) : D :=
  dint (Time.nsec dur) * ddec 1 9 + dint (Time.sec dur).

Definition p_gain : D := ddec 75 2.
Definition d_gain : D := ddec 4 2.

(** [error * p_gain + (error - current) / delta_time * d_gain]. *)
Definition error_target (error current dt : D) : D :=
  let error_diff := (error - current) / dt in
  error * p_gain + error_diff * d_gain.

(** The [switch] of [processTracking]: the raw errors [x_error], [y_error]
    and [ball_size], which start at [0.0].  ([NotFound] returns from inside
    the switch, so only the other two cases are followed by the filter.) *)
Definition raw_error (tracking_status : TrackingStatus) s : D * D * D :=
  match tracking_status with
  | NotFound => (ddec 0 1, ddec 0 1, ddec 0 1)
  | Waiting =>
    (current_ball_pan_ s * ddec 7 1, current_ball_tilt_ s * ddec 7 1,
     current_ball_bottom_ s)
  | Found =>
    (fov_error (Point.x (ball_position_ s)) FOV_WIDTH,
     fov_error (Point.y (ball_position_ s)) FOV_HEIGHT,
     Point.z (ball_position_ s))
  end.

(** [processTracking], called at time [curr_time] ([ros::Time::now()]):
    the status returned, the tracker afterwards, and what was
    published. *)
Definition processTracking (curr_time : Time.t) s
  : TrackingStatus * BallTracker D * list (Published D) :=
  if negb (on_tracking_ s) then
    (NotFound, set_count_not_found_ 0 (set_ball_z (dint 0) s), [])
  else
    let '(tracking_status, s, scan) := check_ball_position s in
    match tracking_status with
    | NotFound => (NotFound, set_tracking_status_ NotFound s, scan)
    | _ =>
      let '(x_error, y_error, ball_size) := raw_error tracking_status s in
      let dt := delta_time (Time.sub curr_time (prev_time_ s)) in
      let s := set_prev_time_ curr_time s in
      let x_error_target := error_target x_error (current_ball_pan_ s) dt in
      let y_error_target := error_target y_error (current_ball_tilt_ s) dt in
      (* move head joint *)
      let out := publishHeadJoint x_error_target y_error_target in
      (* args for following ball *)
      let s := set_current_ball x_error y_error ball_size s in
      let s := set_ball_z (dint 0) s in
      let s := set_tracking_status_ tracking_status s in
      (tracking_status, s, scan ++ out)
    end.

(** What reaches the tracker from outside: a message of the ball
    detector, a command string, a call of [setUsingHeadScan], or a
    control period at a given clock value. *)
Inductive Event : Type :=
| Circles (circles : list (Point.t D))
| Command (data : string)
| UseScan (use_scan : bool)
| Tick (curr_time : Time.t).

Definition step (e : Event) s : BallTracker D * list (Published D) :=
  match e with
  | Circles circles => (ballPositionCallback circles s, [])
  | Command data => ballTrackerCommandCallback data s
  | UseScan b => (setUsingHeadScan b s, [])
  | Tick t => let '(_, s', out) := processTracking t s in (s', out)
  end.

(** The tracker and everything published after a sequence of events. *)
Fixpoint run (es : list Event) s : BallTracker D * list (Published D) :=
  match es with
  | [] => (s, [])
  | e :: es' =>
    let '(s1, out1) := step e s in
    let '(s2, out2) := run es' s1 in
    (s2, out1 ++ out2)
  end.

(** The tracker after a period that returned [Waiting] or [Found]. *)
Definition tracked (st : TrackingStatus) (n : Z) (t : Time.t) s : BallTracker D :=
  let s1 := set_count_not_found_ n s in
  set_tracking_status_ st
    (set_ball_z (dint 0)
       (set_current_ball (fst (fst (raw_error st s1)))
          (snd (fst (raw_error st s1))) (snd (raw_error st s1))
          (set_prev_time_ t s1))).

(** What such a period publishes. *)
Definition tracked_out (st : TrackingStatus) (t : Time.t) s : list (Published D) :=
  let dt := delta_time (Time.sub t (prev_time_ s)) in
  publishHeadJoint
    (error_target (fst (fst (raw_error st s))) (current_ball_pan_ s) dt)
    (error_target (snd (fst (raw_error st s))) (current_ball_tilt_ s) dt).

(** The counter that [processTracking] leaves behind. *)
Definition next_count s : Z :=
  if negb (on_tracking_ s) then 0%Z
  else if Point.z (ball_position_ s) <=? dint 0 then
    if (NOT_FOUND_THRESHOLD <? count_not_found_ s + 1)%Z then 0%Z
    else (count_not_found_ s + 1)%Z
  else 0%Z.

(** The period on which the counter passes [NOT_FOUND_THRESHOLD]: tracking
    is on, no circle is held, and the incremented counter exceeds the
    threshold. *)
Definition crossing s : bool :=
  on_tracking_ s && (Point.z (ball_position_ s) <=? dint 0)
  && (NOT_FOUND_THRESHOLD <? count_not_found_ s + 1)%Z.

(** The number of control periods among some events. *)
Fixpoint ticks_in (es : list Event) : Z :=
  match es with
  | [] => 0%Z
  | Tick _ :: es' => (1 + ticks_in es')%Z
  | _ :: es' => ticks_in es'
  end.

(** Events of a stretch without detection: control periods, and detector
    messages none of whose circles has a positive size. *)
Definition no_detection (e : Event) : bool :=
  match e with
  | Tick _ => true
  | Circles circles => forallb (fun c => Point.z c <=? dint 0) circles
  | _ => false
  end.

(** Events that are command strings. *)
Definition is_command (e : Event) : bool :=
  match e with Command _ => true | _ => false end.

(** Events that are calls of [setUsingHeadScan]. *)
Definition is_use_scan (e : Event) : bool :=
  match e with UseScan _ => true | _ => false end.

(** Events that can publish: control periods and commands. *)
Definition can_publish (e : Event) : bool :=
  match e with Tick _ | Command _ => true | _ => false end.

(** A joint state as [publishHeadJoint] lets it through: the two joints of
    the head, and an angle that is not below one degree. *)
Definition above_deadband (m : Published D) : Prop :=
  exists pan tilt,
    m = AngleOffset pan tilt /\
    (dfabs pan <? min_angle) && (dfabs tilt <? min_angle) = false.

(** What one call publishes: nothing, a scan request, or a joint state
    above the deadband. *)
Definition one_message (out : list (Published D)) : Prop :=
  out = [] \/ out = [ScanRequest] \/
  exists m, out = [m] /\ above_deadband m.

(** The decay of a remembered error over one [Waiting] period. *)
Definition decay (v : D) : D := v * ddec 7 1.

End Tracker.

(** ** Two instances of the arithmetic *)

(** *** The real numbers

    The formulas of the C++ read over [R]: no rounding, [M_PI] the decimal
    that the macro spells, [atan] and [tan] the real functions.  (A quotient
    by zero has no meaning here: what the theorems below conclude from the
    value of a quotient, they conclude for a non-zero [delta_time] only.) *)
Definition Rleb (a b : R) : bool := if Rle_dec a b then true else false.
Definition Rltb (a b : R) : bool := if Rlt_dec a b then true else false.

#[export] Instance RealOps : DoubleOps R := {|
  dint := IZR;
  ddec := fun m k => (IZR m / 10 ^ k)%R;
  dM_PI := 3.14159265358979323846%R;
  dadd := Rplus;
  dsub := Rminus;
  dmul := Rmult;
  ddiv := Rdiv;
  dneg := Ropp;
  dfabs := Rabs;
  dle := Rleb;
  dlt := Rltb;
  datan := atan;
  dtan := tan
|}.

(** *** IEEE binary64

    [double] as the kernel's primitive floats.  [atan] and [tan] are libm's
    and are not part of the repository: they stay parameters. *)
Definition float_of_Z (n : Z) : float :=
  match n with
  | Z0 => PrimFloat.of_uint63 0%uint63
  | Zpos _ => PrimFloat.of_uint63 (Uint63.of_Z n)
  | Zneg p => PrimFloat.opp (PrimFloat.of_uint63 (Uint63.of_Z (Zpos p)))
  end.

Definition Binary64 (libm_atan libm_tan : float -> float) : DoubleOps float := {|
  dint := float_of_Z;
  ddec := fun m k => PrimFloat.div (float_of_Z m) (float_of_Z (10 ^ Z.of_nat k));
  dM_PI := 0x1.921fb54442d18p+1%float;
  dadd := PrimFloat.add;
  dsub := PrimFloat.sub;
  dmul := PrimFloat.mul;
  ddiv := PrimFloat.div;
  dneg := PrimFloat.opp;
  dfabs := PrimFloat.abs;
  dle := PrimFloat.leb;
  dlt := PrimFloat.ltb;
  datan := libm_atan;
  dtan := libm_tan
|}.

(** Polynomial bounds of [tan] on [[0, 1]], from the alternating series of
    [sin] and [cos]: [tan_below a <= tan a <= tan_above a]. *)
Definition tan_below (a : R) : R :=
  ((a - a ^ 3 / 6) / (1 - a ^ 2 / 2 + a ^ 4 / 24))%R.
Definition tan_above (a : R) : R :=
  ((a - a ^ 3 / 6 + a ^ 5 / 120) / (1 - a ^ 2 / 2))%R.

(** [Binary64] for the code that reaches neither [atan] nor [tan]
    ([ballPositionCallback], [publishHeadJoint], the [Waiting] and
    [NotFound] paths of [processTracking]): the two libm functions, which
    are then never applied, are closed off by a function that answers
    NaN. *)
Definition Binary64_nolibm : DoubleOps float :=
  Binary64 (fun _ => nan) (fun _ => nan).

(** A double that is a number, and a double that is infinite or NaN. *)
Definition is_number (x : float) : Prop := Prim2SF x <> S754_nan.

Definition not_finite (x : float) : Prop :=
  match Prim2SF x with
  | S754_nan | S754_infinity _ => True
  | _ => False
  end.

(** The order of the doubles that are numbers, read off a key: the sign
    class, then the exponent and the mantissa (negated for negative
    numbers), compared lexicographically. *)
Definition SFkey (f : spec_float) : Z * Z * Z :=
  match f with
  | S754_zero _ => (0, 0, 0)
  | S754_infinity s => (if s then -2 else 2, 0, 0)
  | S754_nan => (0, 0, 0)
  | S754_finite s m e => if s then (-1, - e, - Zpos m) else (1, e, Zpos m)
  end%Z.

Definition lex_le (a b : Z * Z * Z) : Prop :=
  let '(a1, a2, a3) := a in
  let '(b1, b2, b3) := b in
  (a1 < b1 \/ (a1 = b1 /\ (a2 < b2 \/ (a2 = b2 /\ a3 <= b3))))%Z.

(** * What the tracker does *)

Unset Implicit Arguments.

(** ** One control period, for every arithmetic *)

Section TickFacts.
Context {D : Type} {ops : DoubleOps D}.
Local Open Scope dbl_scope.
Local Open Scope Z_scope.

Implicit Types (s : BallTracker D) (t : Time.t).

Lemma check_ball_position_count s :
  count_not_found_ (snd (fst (check_ball_position s))) =
  if (Point.z (ball_position_ s) <=? dint 0)%dbl then
    if NOT_FOUND_THRESHOLD <? count_not_found_ s + 1 then 0
    else count_not_found_ s + 1
  else 0.
Proof.
  unfold check_ball_position, NOT_FOUND_THRESHOLD, WAITING_THRESHOLD.
  destruct (Point.z (ball_position_ s) <=? dint 0)%dbl; [|reflexivity].
  cbn [count_not_found_ set_count_not_found_ tracking_status_].
  destruct (count_not_found_ s + 1 <? 5) eqn:Hw.
  - apply Z.ltb_lt in Hw.
    destruct (50 <? count_not_found_ s + 1) eqn:Hn;
      [apply Z.ltb_lt in Hn; lia|].
    destruct (tracking_status_ s); reflexivity.
  - destruct (50 <? count_not_found_ s + 1); reflexivity.
Qed.

(** [check_ball_position] writes the counter and nothing else. *)
Lemma check_ball_position_frame s :
  snd (fst (check_ball_position s)) =
  set_count_not_found_
    (count_not_found_ (snd (fst (check_ball_position s)))) s.
Proof.
  unfold check_ball_position.
  destruct (Point.z (ball_position_ s) <=? dint 0)%dbl; [|reflexivity].
  cbn [count_not_found_ set_count_not_found_ tracking_status_].
  destruct (count_not_found_ s + 1 <? WAITING_THRESHOLD).
  - destruct (tracking_status_ s); reflexivity.
  - destruct (NOT_FOUND_THRESHOLD <? count_not_found_ s + 1); reflexivity.
Qed.

Lemma processTracking_count t s :
  count_not_found_ (snd (fst (processTracking t s))) = next_count s.
Proof.
  unfold processTracking, next_count.
  destruct (on_tracking_ s); cbn [negb]; [|reflexivity].
  rewrite <- check_ball_position_count.
  destruct (check_ball_position s) as [[st s1] scan]; cbn [fst snd].
  destruct st; try reflexivity;
    destruct (raw_error _ s1) as [[xe ye] bs]; reflexivity.
Qed.

(** The status that [check_ball_position] resolves. *)
Lemma check_ball_position_status s :
  fst (fst (check_ball_position s)) =
  if (Point.z (ball_position_ s) <=? dint 0)%dbl then
    if count_not_found_ s + 1 <? WAITING_THRESHOLD then
      match tracking_status_ s with
      | NotFound => NotFound
      | _ => Waiting
      end
    else NotFound
  else Found.
Proof.
  unfold check_ball_position.
  destruct (Point.z (ball_position_ s) <=? dint 0)%dbl; [|reflexivity].
  cbn [count_not_found_ set_count_not_found_ tracking_status_].
  destruct (count_not_found_ s + 1 <? WAITING_THRESHOLD).
  - destruct (tracking_status_ s); reflexivity.
  - destruct (NOT_FOUND_THRESHOLD <? count_not_found_ s + 1); reflexivity.
Qed.

(** The scan request that [check_ball_position] sends. *)
Lemma check_ball_position_scan s :
  snd (check_ball_position s) =
  if (Point.z (ball_position_ s) <=? dint 0)%dbl
     && (NOT_FOUND_THRESHOLD <? count_not_found_ s + 1)
     && use_head_scan_ s
  then [ScanRequest] else [].
Proof.
  unfold check_ball_position, scanBall, NOT_FOUND_THRESHOLD, WAITING_THRESHOLD.
  destruct (Point.z (ball_position_ s) <=? dint 0)%dbl; [|reflexivity].
  cbn [count_not_found_ set_count_not_found_ tracking_status_ use_head_scan_
       andb].
  destruct (count_not_found_ s + 1 <? 5) eqn:Hw.
  - apply Z.ltb_lt in Hw.
    destruct (50 <? count_not_found_ s + 1) eqn:Hn;
      [apply Z.ltb_lt in Hn; lia|].
    destruct (tracking_status_ s); reflexivity.
  - destruct (50 <? count_not_found_ s + 1); [|reflexivity].
    destruct (use_head_scan_ s); reflexivity.
Qed.

(** The status returned by [processTracking] is the one it records, on
    every period that runs while tracking is on. *)
Lemma processTracking_status t s :
  on_tracking_ s = true ->
  fst (fst (processTracking t s)) = fst (fst (check_ball_position s)) /\
  tracking_status_ (snd (fst (processTracking t s))) =
  fst (fst (check_ball_position s)).
Proof.
  intros Hon. unfold processTracking. rewrite Hon. cbn [negb].
  destruct (check_ball_position s) as [[st s1] scan]; cbn [fst snd].
  destruct st; try (split; reflexivity);
    destruct (raw_error _ s1) as [[xe ye] bs]; split; reflexivity.
Qed.

End TickFacts.

Section TickClaims.
Context {D : Type} {ops : DoubleOps D}.
Local Open Scope Z_scope.

Implicit Types (s : BallTracker D) (t : Time.t).

(** C1 (as amended).  A control period that runs while tracking is off
    publishes nothing, returns [NotFound], sets the size of the held circle
    and the not-found counter to zero, and leaves [current_ball_pan_],
    [current_ball_tilt_] and [current_ball_bottom_] as they were before the
    period. *)
Theorem inactive_period_is_quiet t s :
  on_tracking_ s = false ->
  let '(st, s', out) := processTracking t s in
  out = [] /\ st = NotFound /\
  Point.z (ball_position_ s') = dint 0 /\
  count_not_found_ s' = 0 /\
  current_ball_pan_ s' = current_ball_pan_ s /\
  current_ball_tilt_ s' = current_ball_tilt_ s /\
  current_ball_bottom_ s' = current_ball_bottom_ s.
Proof.
  intros Hoff. unfold processTracking. rewrite Hoff. cbn.
  repeat split; reflexivity.
Qed.

(** C8 (as amended).  On a period that runs while tracking is on and no
    circle is held (size [<= 0]) the not-found counter goes up by exactly
    one, unless that takes it past [NOT_FOUND_THRESHOLD], in which case it
    is set to 0; on a period with a held circle (size [> 0]) it is set
    to 0. *)
Theorem streak_counts_up_or_restarts t s :
  on_tracking_ s = true ->
  let '(st, s', out) := processTracking t s in
  count_not_found_ s' =
  if (Point.z (ball_position_ s) <=? dint 0)%dbl then
    if NOT_FOUND_THRESHOLD <? count_not_found_ s + 1 then 0
    else count_not_found_ s + 1
  else 0.
Proof.
  intros Hon.
  pose proof (processTracking_count t s) as Hc.
  destruct (processTracking t s) as [[st s'] out]; cbn [fst snd] in Hc.
  rewrite Hc. unfold next_count. rewrite Hon. reflexivity.
Qed.

Lemma next_count_in_range s :
  0 <= count_not_found_ s -> 0 <= next_count s <= NOT_FOUND_THRESHOLD.
Proof.
  intros Hpos. unfold next_count, NOT_FOUND_THRESHOLD.
  destruct (negb (on_tracking_ s)); [lia|].
  destruct (Point.z (ball_position_ s) <=? dint 0)%dbl; [|lia].
  destruct (50 <? count_not_found_ s + 1) eqn:Hn; [lia|].
  apply Z.ltb_ge in Hn. lia.
Qed.

(** Only [processTracking] writes the counter. *)
Lemma step_count (e : Event) s :
  count_not_found_ (fst (step e s)) =
  match e with
  | Tick _ => next_count s
  | _ => count_not_found_ s
  end.
Proof.
  destruct e as [cs|data|b|t]; cbn [step fst]; try reflexivity.
  - unfold ballTrackerCommandCallback, startTracking, stopTracking.
    destruct (String.eqb data "start"); [reflexivity|].
    destruct (String.eqb data "stop"); [reflexivity|].
    destruct (String.eqb data "toggle_start"); [|reflexivity].
    destruct (negb (on_tracking_ s)); reflexivity.
  - pose proof (processTracking_count t s) as Hc.
    destruct (processTracking t s) as [[st s'] out]. exact Hc.
Qed.

(** The counter is never negative. *)
Lemma run_count_nonneg (es : list Event) :
  forall s, 0 <= count_not_found_ s -> 0 <= count_not_found_ (fst (run es s)).
Proof.
  induction es as [|e es IH]; intros s Hpos; [exact Hpos|].
  cbn [run]. pose proof (step_count e s) as Hc.
  destruct (step e s) as [s1 out1]; cbn [fst] in Hc.
  specialize (IH s1).
  destruct (run es s1) as [s2 out2]; cbn [fst] in *.
  apply IH. rewrite Hc.
  destruct e; try exact Hpos.
  apply next_count_in_range. exact Hpos.
Qed.

(** C10.  After every call of [processTracking] from a tracker whose
    counter is not negative, whatever the mode, the held circle and the
    rest of the tracker, the counter lies between 0 and
    [NOT_FOUND_THRESHOLD] (50): an increment that would leave it above the
    threshold is followed by the reset to zero.  In particular this holds
    for the tracker reached from the constructor by any sequence of
    events. *)
Theorem count_not_found_in_range t s (es : list Event) :
  (0 <= count_not_found_ s ->
   let '(st, s', out) := processTracking t s in
   0 <= count_not_found_ s' <= NOT_FOUND_THRESHOLD) /\
  (let '(st, s', out) := processTracking t (fst (run es init)) in
   0 <= count_not_found_ s' <= NOT_FOUND_THRESHOLD).
Proof.
  assert (Hcall : forall s0, 0 <= count_not_found_ s0 ->
            let '(st, s', out) := processTracking t s0 in
            0 <= count_not_found_ s' <= NOT_FOUND_THRESHOLD).
  { intros s0 Hpos.
    pose proof (processTracking_count t s0) as Hc.
    destruct (processTracking t s0) as [[st s'] out]; cbn [fst snd] in Hc.
    rewrite Hc. apply next_count_in_range. exact Hpos. }
  split; [apply Hcall|].
  apply Hcall. apply run_count_nonneg. cbn. lia.
Qed.

End TickClaims.

(** ** Scan requests *)

Section ScanFacts.
Context {D : Type} {ops : DoubleOps D}.
Local Open Scope Z_scope.

Implicit Types (s : BallTracker D) (t : Time.t).

Lemma publishHeadJoint_no_scan (pan tilt : D) :
  filter is_scan (publishHeadJoint pan tilt) = [].
Proof.
  unfold publishHeadJoint.
  destruct (_ && _)%bool; reflexivity.
Qed.

(** What a control period publishes on [head_scan_pub_], and all it
    publishes and the status it returns when the counter passes the
    threshold. *)
Lemma processTracking_scan t s :
  filter is_scan (snd (processTracking t s)) =
  (if crossing s && use_head_scan_ s then [ScanRequest] else []) /\
  (crossing s = true ->
   fst (fst (processTracking t s)) = NotFound /\
   snd (processTracking t s) = filter is_scan (snd (processTracking t s))).
Proof.
  unfold processTracking, crossing.
  destruct (on_tracking_ s); cbn [negb andb]; [|split; [reflexivity|discriminate]].
  pose proof (check_ball_position_scan s) as Hscan.
  pose proof (check_ball_position_status s) as Hst.
  destruct (check_ball_position s) as [[st s1] scan]; cbn [fst snd] in *.
  subst scan st. unfold NOT_FOUND_THRESHOLD, WAITING_THRESHOLD.
  destruct (Point.z (ball_position_ s) <=? dint 0)%dbl; cbn [andb].
  - destruct (count_not_found_ s + 1 <? 5) eqn:Hw.
    + apply Z.ltb_lt in Hw.
      destruct (50 <? count_not_found_ s + 1) eqn:Hn;
        [apply Z.ltb_lt in Hn; lia|].
      cbn [andb].
      destruct (tracking_status_ s); cbn [fst snd];
        try (split; [reflexivity|discriminate]);
        destruct (raw_error _ s1) as [[xe ye] bs]; cbn [fst snd app];
        (split; [apply publishHeadJoint_no_scan|discriminate]).
    + destruct (50 <? count_not_found_ s + 1); cbn [andb fst snd];
        [|split; [reflexivity|discriminate]].
      destruct (use_head_scan_ s); cbn; repeat split; reflexivity.
  - destruct (raw_error _ s1) as [[xe ye] bs]; cbn [fst snd app].
    split; [apply publishHeadJoint_no_scan|discriminate].
Qed.

Lemma ticks_in_nonneg (es : list (@Event D)) : 0 <= ticks_in es.
Proof.
  induction es as [|[cs|data|b|t] es IH]; cbn [ticks_in]; lia.
Qed.

(** Events other than control periods leave the counter alone and publish
    no scan request. *)
Lemma step_other_count (e : Event) s :
  (forall t, e <> Tick t) ->
  count_not_found_ (fst (step e s)) = count_not_found_ s /\
  filter is_scan (snd (step e s)) = [].
Proof.
  intros Hnt. destruct e as [cs|data|b|t]; cbn [step fst snd].
  - split; reflexivity.
  - unfold ballTrackerCommandCallback, startTracking, stopTracking.
    destruct (String.eqb data "start"); [split; reflexivity|].
    destruct (String.eqb data "stop");
      [split; [reflexivity|apply publishHeadJoint_no_scan]|].
    destruct (String.eqb data "toggle_start"); [|split; reflexivity].
    destruct (negb (on_tracking_ s)); cbn [fst snd];
      [split; reflexivity|split; [reflexivity|apply publishHeadJoint_no_scan]].
  - split; reflexivity.
  - exfalso. apply (Hnt t). reflexivity.
Qed.

Lemma run_cons (e : Event) (es : list Event) s :
  run (e :: es) s =
  (fst (run es (fst (step e s))), snd (step e s) ++ snd (run es (fst (step e s)))).
Proof.
  cbn [run]. destruct (step e s) as [s1 out1]; cbn [fst snd].
  destruct (run es s1) as [s2 out2]; reflexivity.
Qed.

Lemma step_tick t s :
  step (Tick t) s = (snd (fst (processTracking t s)), snd (processTracking t s)).
Proof.
  cbn [step]. destruct (processTracking t s) as [[st s'] out]; reflexivity.
Qed.

(** While the counter cannot pass the threshold, nothing is published on
    [head_scan_pub_]. *)
Lemma run_without_scan (es : list Event) :
  forall s,
    0 <= count_not_found_ s ->
    count_not_found_ s + ticks_in es <= NOT_FOUND_THRESHOLD ->
    filter is_scan (snd (run es s)) = [].
Proof.
  induction es as [|e es IH]; intros s Hpos Hle; [reflexivity|].
  rewrite run_cons; cbn [snd]. rewrite filter_app.
  assert (Hstep : filter is_scan (snd (step e s)) = [] /\
                  0 <= count_not_found_ (fst (step e s)) /\
                  count_not_found_ (fst (step e s)) + ticks_in es
                  <= NOT_FOUND_THRESHOLD).
  { destruct e as [cs|data|b|t].
    1-3: (match goal with |- context [step ?e0 ?s0] =>
            destruct (step_other_count e0 s0) as [Hc Hs]; [discriminate|]
          end; rewrite Hc, Hs; cbn [ticks_in] in Hle; repeat split; lia).
    rewrite step_tick; cbn [fst snd]. cbn [ticks_in] in Hle.
    destruct (processTracking_scan t s) as [Hs _].
    rewrite Hs, processTracking_count.
    unfold crossing, next_count, NOT_FOUND_THRESHOLD in *.
    destruct (on_tracking_ s); cbn [negb andb]; [|repeat split; lia].
    destruct (Point.z (ball_position_ s) <=? dint 0)%dbl; cbn [andb];
      [|repeat split; lia].
    pose proof (ticks_in_nonneg es).
    destruct (50 <? count_not_found_ s + 1) eqn:Hn;
      [apply Z.ltb_lt in Hn; lia|].
    cbn [andb]. repeat split; lia. }
  destruct Hstep as (Hs & Hpos' & Hle').
  rewrite Hs, (IH _ Hpos' Hle'). reflexivity.
Qed.

End ScanFacts.

Section ScanClaim.
Context {D : Type} {ops : DoubleOps D}.
Local Open Scope Z_scope.

Implicit Types (s : BallTracker D) (t : Time.t).

(** C4.  A control period publishes a scan request exactly when tracking
    is on, no circle is held, the incremented counter exceeds
    [NOT_FOUND_THRESHOLD] and [use_head_scan_] is set, and then it
    publishes exactly one; so none is published while [use_head_scan_] is
    false.  On the period where the counter passes the threshold nothing
    else is published, the status is [NotFound], the counter restarts at 0,
    and whatever events follow, no scan request is published as long as
    they contain at most [NOT_FOUND_THRESHOLD] control periods. *)
Theorem scan_request_exactly_on_crossing t s (es : list Event) :
  let '(st, s', out) := processTracking t s in
  filter is_scan out =
    (if crossing s && use_head_scan_ s then [ScanRequest] else []) /\
  (crossing s = true ->
   st = NotFound /\ out = filter is_scan out /\ count_not_found_ s' = 0 /\
   (ticks_in es <= NOT_FOUND_THRESHOLD ->
    filter is_scan (snd (run es s')) = [])).
Proof.
  destruct (processTracking_scan t s) as [Hscan Hcross].
  pose proof (processTracking_count t s) as Hcount.
  destruct (processTracking t s) as [[st s'] out]; cbn [fst snd] in *.
  split; [exact Hscan|].
  intros Hc. destruct (Hcross Hc) as [Hst Hout].
  assert (Hzero : count_not_found_ s' = 0).
  { rewrite Hcount. unfold next_count. unfold crossing in Hc.
    destruct (on_tracking_ s); [|discriminate].
    destruct (Point.z (ball_position_ s) <=? dint 0)%dbl; [|discriminate].
    cbn [andb negb] in *. rewrite Hc. reflexivity. }
  repeat split; try assumption.
  intros Hle. apply run_without_scan; lia.
Qed.

End ScanClaim.

(** ** From [Found] to [Waiting] *)

Section WaitingFacts.
Context {D : Type} {ops : DoubleOps D}.
Local Open Scope Z_scope.

Implicit Types (s : BallTracker D) (t : Time.t).

(** Tracking is switched by commands only. *)
Lemma processTracking_on_tracking t s :
  on_tracking_ (snd (fst (processTracking t s))) = on_tracking_ s.
Proof.
  unfold processTracking.
  destruct (on_tracking_ s) eqn:Hon; cbn [negb]; [|exact Hon].
  pose proof (check_ball_position_frame s) as Hf.
  destruct (check_ball_position s) as [[st s1] scan]; cbn [fst snd] in *.
  rewrite Hf.
  destruct st; try exact Hon;
    destruct (raw_error _ _) as [[xe ye] bs]; exact Hon.
Qed.

(** A period that returns [Waiting] or [Found] clears the size of the held
    circle. *)
Lemma processTracking_clears_z t s :
  fst (fst (processTracking t s)) <> NotFound ->
  Point.z (ball_position_ (snd (fst (processTracking t s)))) = dint 0.
Proof.
  unfold processTracking.
  destruct (on_tracking_ s); cbn [negb]; [|intros H; reflexivity].
  destruct (check_ball_position s) as [[st s1] scan]; cbn [fst snd].
  destruct st; try (intros H; exfalso; apply H; reflexivity);
    destruct (raw_error _ _) as [[xe ye] bs]; intros _; reflexivity.
Qed.

(** Circles without a positive size do not replace a held circle of
    size 0. *)
Lemma largest_circle_no_detection (held : Point.t D) circles :
  Point.z held = dint 0 ->
  forallb (fun c => (Point.z c <=? dint 0)%dbl) circles = true ->
  largest_circle held circles = held.
Proof.
  intros Hz. unfold largest_circle.
  induction circles as [|c cs IH]; intros Hall; [reflexivity|].
  cbn [forallb] in Hall. apply andb_prop in Hall as [Hc Hcs].
  cbn [fold_left]. unfold keep_larger at 2. rewrite Hz, Hc. exact (IH Hcs).
Qed.

(** The stretch after a sighting: as long as the counter stays below
    [WAITING_THRESHOLD], every period without detection resolves to
    [Waiting]. *)
Lemma no_detection_run (Hzero : ((dint 0 : D) <=? dint 0)%dbl = true)
      (es : list Event) :
  forall s,
    on_tracking_ s = true ->
    Point.z (ball_position_ s) = dint 0 ->
    count_not_found_ s + ticks_in es < WAITING_THRESHOLD ->
    tracking_status_ s <> NotFound ->
    forallb no_detection es = true ->
    tracking_status_ (fst (run es s)) =
    if ticks_in es =? 0 then tracking_status_ s else Waiting.
Proof.
  induction es as [|e es IH]; intros s Hon Hz Hlt Hst Hall; [reflexivity|].
  cbn [forallb] in Hall. apply andb_prop in Hall as [He Hes].
  rewrite run_cons; cbn [fst].
  pose proof (ticks_in_nonneg es) as Hnn.
  destruct e as [cs|data|b|t]; try discriminate He.
  - cbn [step fst ticks_in no_detection] in *.
    assert (Hs : ballPositionCallback cs s = set_ball_position_ (ball_position_ s) s).
    { unfold ballPositionCallback.
      rewrite (largest_circle_no_detection _ _ Hz He). reflexivity. }
    rewrite Hs.
    exact (IH (set_ball_position_ (ball_position_ s) s) Hon Hz Hlt Hst Hes).
  - rewrite step_tick; cbn [fst ticks_in] in *.
    destruct (processTracking_status t s Hon) as [Hret Hrec].
    pose proof (check_ball_position_status s) as Hchk.
    rewrite Hz, Hzero in Hchk.
    assert (Hw : (count_not_found_ s + 1 <? WAITING_THRESHOLD) = true)
      by (apply Z.ltb_lt; lia).
    rewrite Hw in Hchk.
    assert (Hwait : fst (fst (check_ball_position s)) = Waiting)
      by (rewrite Hchk; destruct (tracking_status_ s); congruence).
    rewrite Hwait in Hret, Hrec.
    assert (Hcount : count_not_found_ (snd (fst (processTracking t s)))
                     = count_not_found_ s + 1).
    { rewrite processTracking_count. unfold next_count.
      rewrite Hon, Hz, Hzero. cbn [negb].
      unfold NOT_FOUND_THRESHOLD, WAITING_THRESHOLD in *.
      destruct (50 <? count_not_found_ s + 1) eqn:Hn;
        [apply Z.ltb_lt in Hn; lia|reflexivity]. }
    rewrite IH; try assumption.
    + rewrite Hrec.
      destruct (ticks_in es =? 0); destruct (1 + ticks_in es =? 0) eqn:E;
        try reflexivity; apply Z.eqb_eq in E; lia.
    + rewrite processTracking_on_tracking. exact Hon.
    + apply processTracking_clears_z. rewrite Hret. discriminate.
    + rewrite Hcount. lia.
    + rewrite Hrec. discriminate.
Qed.

(** C9.  In an arithmetic where [0 <= 0] holds: if a period that runs
    while tracking is on leaves the status [Found], and it is followed by
    events without detection that contain [k] control periods, with
    [1 <= k <= WAITING_THRESHOLD - 1], then the status after them is
    [Waiting]. *)
Theorem found_then_waiting (Hzero : ((dint 0 : D) <=? dint 0)%dbl = true)
        t0 s0 (es : list Event) :
  on_tracking_ s0 = true ->
  let '(st, s, out) := processTracking t0 s0 in
  tracking_status_ s = Found ->
  forallb no_detection es = true ->
  1 <= ticks_in es <= WAITING_THRESHOLD - 1 ->
  tracking_status_ (fst (run es s)) = Waiting.
Proof.
  intros Hon.
  destruct (processTracking_status t0 s0 Hon) as [Hret Hrec].
  pose proof (processTracking_on_tracking t0 s0) as Hon'.
  pose proof (processTracking_clears_z t0 s0) as Hz.
  pose proof (processTracking_count t0 s0) as Hcount.
  pose proof (check_ball_position_status s0) as Hchk.
  destruct (processTracking t0 s0) as [[st s] out]; cbn [fst snd] in *.
  intros Hfound Hall Hk.
  assert (Hst : st = Found) by congruence. rewrite Hst in *.
  assert (Hc0 : count_not_found_ s = 0).
  { rewrite Hcount. unfold next_count. rewrite Hon. cbn [negb].
    destruct (Point.z (ball_position_ s0) <=? dint 0)%dbl; [|reflexivity].
    rewrite <- Hret in Hchk.
    destruct (count_not_found_ s0 + 1 <? WAITING_THRESHOLD);
      [destruct (tracking_status_ s0)|]; discriminate. }
  rewrite (no_detection_run Hzero es s); try congruence.
  - destruct (ticks_in es =? 0) eqn:E; [apply Z.eqb_eq in E; lia|reflexivity].
  - apply Hz. discriminate.
  - lia.
Qed.

End WaitingFacts.

(** ** The command of a [Waiting] or [Found] period *)

Section CommandFacts.
Context {D : Type} {ops : DoubleOps D}.
Local Open Scope dbl_scope.

Implicit Types (s : BallTracker D) (t : Time.t).

(** A period that returns [Waiting] or [Found] publishes what
    [publishHeadJoint] makes of the two PD targets, and remembers the raw
    errors, the size and the clock. *)
Lemma processTracking_tracking t s :
  fst (fst (processTracking t s)) <> NotFound ->
  let st := fst (fst (processTracking t s)) in
  let s' := snd (fst (processTracking t s)) in
  let dt := delta_time (Time.sub t (prev_time_ s)) in
  let x_error := fst (fst (raw_error st s)) in
  let y_error := snd (fst (raw_error st s)) in
  snd (processTracking t s) =
    publishHeadJoint (error_target x_error (current_ball_pan_ s) dt)
                     (error_target y_error (current_ball_tilt_ s) dt) /\
  current_ball_pan_ s' = x_error /\
  current_ball_tilt_ s' = y_error /\
  current_ball_bottom_ s' = snd (raw_error st s) /\
  prev_time_ s' = t.
Proof.
  unfold processTracking.
  destruct (on_tracking_ s); cbn [negb];
    [|intros H; exfalso; apply H; reflexivity].
  pose proof (check_ball_position_frame s) as Hf.
  pose proof (check_ball_position_scan s) as Hscan.
  pose proof (check_ball_position_status s) as Hst.
  destruct (check_ball_position s) as [[st s1] scan]; cbn [fst snd] in *.
  assert (Hnil : st <> NotFound -> scan = []).
  { intros Hne. rewrite Hscan.
    destruct (Point.z (ball_position_ s) <=? dint 0); [|reflexivity].
    cbn [andb]. unfold NOT_FOUND_THRESHOLD, WAITING_THRESHOLD in *.
    destruct (count_not_found_ s + 1 <? 5)%Z eqn:Hw; [|congruence].
    apply Z.ltb_lt in Hw.
    destruct (50 <? count_not_found_ s + 1)%Z eqn:Hn;
      [apply Z.ltb_lt in Hn; lia|reflexivity]. }
  rewrite Hf. clear Hf Hscan Hst.
  destruct st; [intros H; exfalso; apply H; reflexivity| |];
    intros _; rewrite Hnil by discriminate; cbn; repeat split; reflexivity.
Qed.

End CommandFacts.

(** ** The deadband, the stop command *)

Section CommandClaims.
Context {D : Type} {ops : DoubleOps D}.
Local Open Scope dbl_scope.

Implicit Types (s : BallTracker D) (t : Time.t).


(** C6 (as amended).  The command [stop] turns tracking off and
    publishes at most one joint state: none when the two angles that the
    field-of-view mapping gives for [x] and [y] of the held circle are both
    below one degree, and otherwise the one carrying these two angles.
    What is published does not depend on [current_ball_pan_],
    [current_ball_tilt_] and [current_ball_bottom_]. *)
Theorem stop_publishes_raw_mapping s (pan tilt bottom : D) :
  let '(s', out) := ballTrackerCommandCallback "stop" s in
  let x_error := fov_error (Point.x (ball_position_ s)) FOV_WIDTH in
  let y_error := fov_error (Point.y (ball_position_ s)) FOV_HEIGHT in
  on_tracking_ s' = false /\
  out = (if (dfabs x_error <? min_angle) && (dfabs y_error <? min_angle)
         then [] else [AngleOffset x_error y_error]) /\
  snd (ballTrackerCommandCallback "stop" (set_current_ball pan tilt bottom s))
  = out.
Proof.
  cbn. repeat split; reflexivity.
Qed.

End CommandClaims.

(** ** Over the real numbers *)

Section RealOrder.
Local Open Scope R_scope.

Lemma Rleb_true (a b : R) : a <= b -> Rleb a b = true.
Proof.
  intros H. unfold Rleb. destruct (Rle_dec a b); [reflexivity|contradiction].
Qed.

Lemma Rleb_false (a b : R) : b < a -> Rleb a b = false.
Proof.
  intros H. unfold Rleb. destruct (Rle_dec a b); [lra|reflexivity].
Qed.

Lemma Rltb_true (a b : R) : a < b -> Rltb a b = true.
Proof.
  intros H. unfold Rltb. destruct (Rlt_dec a b); [reflexivity|contradiction].
Qed.

Lemma Rltb_false (a b : R) : b <= a -> Rltb a b = false.
Proof.
  intros H. unfold Rltb. destruct (Rlt_dec a b); [lra|reflexivity].
Qed.

(** The loop body of [ballPositionCallback] over the reals: the reported
    circle replaces the held one exactly when it is strictly larger. *)
Lemma keep_larger_real (held c : Point.t R) :
  keep_larger held c =
  if Rlt_dec (Point.z held) (Point.z c) then c else held.
Proof.
  unfold keep_larger. cbn [dle RealOps].
  destruct (Rlt_dec (Point.z held) (Point.z c)) as [Hlt|Hge].
  - rewrite Rleb_false by exact Hlt. reflexivity.
  - rewrite Rleb_true by lra. reflexivity.
Qed.

Lemma largest_circle_snoc (held c : Point.t R) circles :
  largest_circle held (circles ++ [c]) =
  keep_larger (largest_circle held circles) c.
Proof.
  unfold largest_circle. rewrite fold_left_app. reflexivity.
Qed.

(** The circle kept is the first of the largest among the held circle
    followed by the reported ones. *)
Lemma largest_circle_split (held : Point.t R) circles :
  exists before after,
    held :: circles = before ++ largest_circle held circles :: after /\
    Forall (fun c => Point.z c < Point.z (largest_circle held circles)) before /\
    Forall (fun c => Point.z c <= Point.z (largest_circle held circles)) after.
Proof.
  induction circles as [|c cs IH] using rev_ind.
  - exists [], []. repeat split; constructor.
  - destruct IH as (before & after & Heq & Hb & Ha).
    rewrite largest_circle_snoc, keep_larger_real.
    set (r := largest_circle held cs) in *.
    destruct (Rlt_dec (Point.z r) (Point.z c)) as [Hlt|Hge].
    + exists (held :: cs), []. split; [|split].
      * rewrite app_comm_cons. reflexivity.
      * rewrite Heq. apply Forall_app. split.
        -- eapply Forall_impl; [|exact Hb]. cbn beta. intros a Hlt'. lra.
        -- constructor; [exact Hlt|].
           eapply Forall_impl; [|exact Ha]. cbn beta. intros a Hle. lra.
      * constructor.
    + exists before, (after ++ [c]). split; [|split].
      * rewrite app_comm_cons, Heq, <- app_assoc. reflexivity.
      * exact Hb.
      * apply Forall_app. split; [exact Ha|].
        constructor; [lra|constructor].
Qed.

(** Over the reals, for every tracker and every list of reported
    circles: the circle held after [ballPositionCallback] is the first one
    of largest size in the sequence made of the circle held before followed
    by the reported ones (every earlier one is strictly smaller, no later
    one is larger), so it is either the circle held before or a reported
    one strictly larger than it; a single report replaces the held circle
    exactly when its size is strictly larger; and reporting in several
    messages is the same as reporting their concatenation. *)
Lemma largest_circle_first_seen (s : BallTracker R)
        (circles more : list (Point.t R)) (c : Point.t R) :
  let held := ball_position_ s in
  let r := ball_position_ (ballPositionCallback circles s) in
  (exists before after,
      held :: circles = before ++ r :: after /\
      Forall (fun c => Point.z c < Point.z r) before /\
      Forall (fun c => Point.z c <= Point.z r) after) /\
  (r = held \/ (In r circles /\ Point.z held < Point.z r)) /\
  ball_position_ (ballPositionCallback [c] s) =
    (if Rlt_dec (Point.z held) (Point.z c) then c else held) /\
  ballPositionCallback more (ballPositionCallback circles s) =
    ballPositionCallback (circles ++ more) s.
Proof.
  cbn zeta. cbn [ballPositionCallback ball_position_ set_ball_position_].
  pose proof (largest_circle_split (ball_position_ s) circles) as Hsplit.
  split; [exact Hsplit|]. split; [|split].
  - destruct Hsplit as (before & after & Heq & Hb & _).
    remember (largest_circle (ball_position_ s) circles) as r eqn:Hr.
    clear Hr.
    destruct before as [|b0 before].
    + left. cbn [app] in Heq. congruence.
    + right. cbn [app] in Heq. injection Heq as Hb0 Hcs. subst b0.
      split.
      * rewrite Hcs. apply in_or_app. right. left. reflexivity.
      * inversion Hb. assumption.
  - unfold largest_circle. cbn [fold_left]. apply keep_larger_real.
  - unfold ballPositionCallback, largest_circle.
    cbn [ball_position_ set_ball_position_ use_head_scan_ count_not_found_
         on_tracking_ current_ball_pan_ current_ball_tilt_
         current_ball_bottom_ tracking_status_ prev_time_].
    rewrite fold_left_app. reflexivity.
Qed.

End RealOrder.

(** ** The three outcomes of a period while tracking is on *)

Section TickEquations.
Context {D : Type} {ops : DoubleOps D}.
Local Open Scope dbl_scope.

Implicit Types (s : BallTracker D) (t : Time.t).

Lemma processTracking_inactive t s :
  on_tracking_ s = false ->
  processTracking t s =
  (NotFound, set_count_not_found_ 0 (set_ball_z (dint 0) s), []).
Proof.
  intros Hoff. unfold processTracking. rewrite Hoff. reflexivity.
Qed.

Lemma processTracking_found t s :
  on_tracking_ s = true ->
  (Point.z (ball_position_ s) <=? dint 0) = false ->
  processTracking t s = (Found, tracked Found 0 t s, tracked_out Found t s).
Proof.
  intros Hon Hz. unfold processTracking, check_ball_position.
  rewrite Hon, Hz. reflexivity.
Qed.

Lemma processTracking_waiting t s :
  on_tracking_ s = true ->
  (Point.z (ball_position_ s) <=? dint 0) = true ->
  (count_not_found_ s + 1 < WAITING_THRESHOLD)%Z ->
  tracking_status_ s <> NotFound ->
  processTracking t s =
  (Waiting, tracked Waiting (count_not_found_ s + 1) t s,
   tracked_out Waiting t s).
Proof.
  intros Hon Hz Hw Hst. unfold processTracking, check_ball_position.
  rewrite Hon, Hz.
  cbn [negb count_not_found_ set_count_not_found_ tracking_status_].
  apply Z.ltb_lt in Hw. rewrite Hw.
  destruct (tracking_status_ s) eqn:Hs; [congruence| |];
    unfold tracked, tracked_out, raw_error; cbn; rewrite ?Hs; reflexivity.
Qed.

Lemma processTracking_lost t s :
  on_tracking_ s = true ->
  (Point.z (ball_position_ s) <=? dint 0) = true ->
  (WAITING_THRESHOLD <= count_not_found_ s + 1)%Z \/
  tracking_status_ s = NotFound ->
  processTracking t s =
  (NotFound,
   set_tracking_status_ NotFound (set_count_not_found_ (next_count s) s),
   if (NOT_FOUND_THRESHOLD <? count_not_found_ s + 1)%Z && use_head_scan_ s
   then [ScanRequest] else []).
Proof.
  intros Hon Hz Hcase. unfold processTracking, check_ball_position, next_count.
  rewrite Hon, Hz. cbn [negb count_not_found_ set_count_not_found_].
  unfold scanBall, NOT_FOUND_THRESHOLD, WAITING_THRESHOLD in *.
  destruct (count_not_found_ s + 1 <? 5)%Z eqn:Hw.
  - apply Z.ltb_lt in Hw. destruct Hcase as [Hge|Hnf]; [lia|].
    cbn [tracking_status_ set_count_not_found_]. rewrite Hnf.
    destruct (50 <? count_not_found_ s + 1)%Z eqn:Hn;
      [apply Z.ltb_lt in Hn; lia|reflexivity].
  - destruct (50 <? count_not_found_ s + 1)%Z; [|reflexivity].
    cbn [use_head_scan_ set_count_not_found_ andb].
    destruct (use_head_scan_ s); reflexivity.
Qed.

End TickEquations.

(** ** The field-of-view mapping and the PD filter over the reals *)

Section RealAngles.
Local Open Scope R_scope.

Lemma real_p_gain : @p_gain R _ = 0.75.
Proof. unfold p_gain. cbn. lra. Qed.

Lemma real_d_gain : @d_gain R _ = 0.04.
Proof. unfold d_gain. cbn. lra. Qed.

Lemma real_FOV_WIDTH : @FOV_WIDTH R _ = 26.4 * 3.14159265358979323846 / 180.
Proof. unfold FOV_WIDTH. cbn. lra. Qed.

Lemma real_FOV_HEIGHT : @FOV_HEIGHT R _ = 21.6 * 3.14159265358979323846 / 180.
Proof. unfold FOV_HEIGHT. cbn. lra. Qed.

Lemma real_min_angle : @min_angle R _ = 3.14159265358979323846 / 180.
Proof. unfold min_angle. cbn. lra. Qed.

Lemma real_error_target (error current dt : R) :
  error_target error current dt =
  error * 0.75 + (error - current) / dt * 0.04.
Proof.
  unfold error_target. rewrite real_p_gain, real_d_gain. reflexivity.
Qed.

Lemma real_fov_error (v fov : R) : fov_error v fov = - atan (v * tan fov).
Proof. reflexivity. Qed.

Lemma sin_cubic (a : R) :
  0 <= a <= 1 -> a - a ^ 3 / 6 <= sin a <= a - a ^ 3 / 6 + a ^ 5 / 120.
Proof.
  intros Ha.
  assert (Hpi : a <= PI) by (pose proof PI2_1; lra).
  destruct (sin_bound a 0 (proj1 Ha) Hpi) as [Hl Hu].
  unfold sin_approx, sin_term in *. cbn in Hl, Hu. lra.
Qed.

Lemma cos_quartic (a : R) :
  0 <= a <= 1 -> 1 - a ^ 2 / 2 <= cos a <= 1 - a ^ 2 / 2 + a ^ 4 / 24.
Proof.
  intros Ha.
  assert (Hpi : - PI / 2 <= a <= PI / 2) by (pose proof PI2_1; lra).
  destruct (cos_bound a 0 (proj1 Hpi) (proj2 Hpi)) as [Hl Hu].
  unfold cos_approx, cos_term in *. cbn in Hl, Hu. lra.
Qed.

Lemma tan_between (a : R) :
  0 <= a <= 1 -> tan_below a <= tan a <= tan_above a.
Proof.
  intros Ha. destruct (sin_cubic a Ha) as [Hsl Hsu].
  destruct (cos_quartic a Ha) as [Hcl Hcu].
  assert (Ha2 : 0 <= a ^ 2 <= 1) by nra.
  assert (Hc : 1 / 2 <= 1 - a ^ 2 / 2) by lra.
  assert (Hs0 : 0 <= a - a ^ 3 / 6) by nra.
  unfold tan_below, tan_above, tan. split.
  - apply Rle_trans with ((a - a ^ 3 / 6) / cos a).
    + unfold Rdiv. apply Rmult_le_compat_l; [exact Hs0|].
      apply Rinv_le_contravar; lra.
    + unfold Rdiv. apply Rmult_le_compat_r; [|lra].
      apply Rlt_le, Rinv_0_lt_compat. lra.
  - apply Rle_trans with ((a - a ^ 3 / 6 + a ^ 5 / 120) / cos a).
    + unfold Rdiv. apply Rmult_le_compat_r; [|lra].
      apply Rlt_le, Rinv_0_lt_compat. lra.
    + unfold Rdiv. apply Rmult_le_compat_l; [lra|].
      apply Rinv_le_contravar; lra.
Qed.

(** Enclosing [-atan(v * tan(a))] between two angles by comparing the
    polynomial bounds of the tangents. *)
Lemma fov_error_between (v a lo hi : R) :
  0 <= a <= 1 -> 0 <= lo <= 1 -> 0 <= hi <= 1 -> 0 <= v ->
  tan_above lo < v * tan_below a -> v * tan_above a < tan_below hi ->
  - hi < fov_error v a < - lo.
Proof.
  intros Ha Hlo Hhi Hv H1 H2.
  destruct (tan_between a Ha) as [Hal Hau].
  destruct (tan_between lo Hlo) as [_ Hlou].
  destruct (tan_between hi Hhi) as [Hhil _].
  pose proof PI2_1 as Hpi.
  rewrite real_fov_error.
  assert (Hlt1 : tan lo < v * tan a) by nra.
  assert (Hlt2 : v * tan a < tan hi) by nra.
  apply atan_increasing in Hlt1. apply atan_increasing in Hlt2.
  rewrite atan_tan in Hlt1 by lra. rewrite atan_tan in Hlt2 by lra.
  lra.
Qed.

(** The pan error for a circle at [x = 0.5], with the angle the
    constructor sets. *)
Lemma fov_error_half_width :
  -0.25 < fov_error 0.5 (@FOV_WIDTH R _) < -0.24.
Proof.
  assert (H : - (0.25) < fov_error 0.5 (@FOV_WIDTH R _) < - (0.24)); [|lra].
  apply fov_error_between; unfold tan_above, tan_below, FOV_WIDTH; cbn; lra.
Qed.

(** The same formula at the angle 0.2307 rad. *)
Lemma fov_error_half_2307 : -0.118 < fov_error 0.5 0.2307 < -0.116.
Proof.
  assert (H : - (0.118) < fov_error 0.5 0.2307 < - (0.116)); [|lra].
  apply fov_error_between; unfold tan_above, tan_below; cbn; lra.
Qed.

(** And at 13.2 degrees, half of [FOV_WIDTH]. *)
Lemma fov_error_half_13_2 :
  -0.118 < fov_error 0.5 (13.2 * 3.14159265358979323846 / 180) < -0.116.
Proof.
  assert (H : - (0.118)
              < fov_error 0.5 (13.2 * 3.14159265358979323846 / 180)
              < - (0.116)); [|lra].
  apply fov_error_between; unfold tan_above, tan_below; cbn; lra.
Qed.

(** An angle error is below a right angle in magnitude. *)
Lemma fov_error_bounded (v fov : R) : Rabs (fov_error v fov) < 2.
Proof.
  rewrite real_fov_error, Rabs_Ropp.
  destruct (atan_bound (v * tan fov)) as [Hl Hu].
  pose proof PI_4 as Hpi.
  apply Rabs_def1; lra.
Qed.

(** With nothing remembered, the PD target is [P * error] up to
    [D * error / dt]. *)
Lemma error_target_from_rest (error dt : R) :
  0 < dt ->
  error_target error 0 dt - 0.75 * error = 0.04 * error / dt.
Proof.
  intros Hdt. rewrite real_error_target. field. lra.
Qed.

End RealAngles.

Section RealClaims.
Local Open Scope R_scope.

(** Over the reals, on a period that returns [Waiting] or [Found]: the
    two targets, and for [dt <> 0], a negative [dt] included, when a
    target equals [0.75 * error]. *)
Lemma real_targets (t : Time.t) (s : BallTracker R) :
  fst (fst (processTracking t s)) <> NotFound ->
  let st := fst (fst (processTracking t s)) in
  let dt := delta_time (Time.sub t (prev_time_ s)) in
  let x_error := fst (fst (raw_error st s)) in
  let y_error := snd (fst (raw_error st s)) in
  let pan := x_error * 0.75 + (x_error - current_ball_pan_ s) / dt * 0.04 in
  let tilt := y_error * 0.75 + (y_error - current_ball_tilt_ s) / dt * 0.04 in
  snd (processTracking t s) = publishHeadJoint pan tilt /\
  (dt <> 0 ->
   (pan = 0.75 * x_error <-> x_error = current_ball_pan_ s) /\
   (tilt = 0.75 * y_error <-> y_error = current_ball_tilt_ s)).
Proof.
  intros Hst. destruct (processTracking_tracking t s Hst) as [Hout _].
  cbv zeta in *. rewrite !real_error_target in Hout.
  split; [exact Hout|].
  set (dt := delta_time (Time.sub t (prev_time_ s))).
  intros Hdt.
  assert (Hzero : forall e c : R, (e - c) / dt * 0.04 = 0 <-> e = c).
  { intros e c. split.
    - intros H.
      assert (H' : (e - c) / dt = 0) by lra.
      apply (f_equal (fun v => v * dt)) in H'.
      unfold Rdiv in H'. rewrite Rmult_assoc, Rinv_l in H' by exact Hdt. lra.
    - intros ->. unfold Rdiv. rewrite Rminus_diag. lra. }
  split; (split; [intros H; apply Hzero; lra|intros H; apply Hzero in H; lra]).
Qed.

(** C3 (as amended).  Over the reals, on every period that runs while
    tracking is on with a held circle of positive size: the period returns
    [Found]; the raw errors it remembers are
    [pan_error = -atan(x * tan(FOV_WIDTH))] and
    [tilt_error = -atan(y * tan(FOV_HEIGHT))], where the angles set by the
    constructor are [FOV_WIDTH = 26.4 * M_PI / 180] and
    [FOV_HEIGHT = 21.6 * M_PI / 180], that is 26.4 and 21.6 degrees; the
    remembered size is the size of the circle; for [x = 0.5] the pan error
    lies between -0.25 and -0.24 rad; and with a remembered pan of zero the
    pan target is within [eps] of [0.75 * pan_error] as soon as
    [dt > 0.08 / eps]. *)
Theorem found_period_raw_errors (t : Time.t) (s : BallTracker R) (eps : R) :
  on_tracking_ s = true ->
  0 < Point.z (ball_position_ s) ->
  let '(st, s', out) := processTracking t s in
  let dt := delta_time (Time.sub t (prev_time_ s)) in
  let pan_error :=
    - atan (Point.x (ball_position_ s)
            * tan (26.4 * 3.14159265358979323846 / 180)) in
  let tilt_error :=
    - atan (Point.y (ball_position_ s)
            * tan (21.6 * 3.14159265358979323846 / 180)) in
  let pan_target :=
    pan_error * 0.75 + (pan_error - current_ball_pan_ s) / dt * 0.04 in
  let tilt_target :=
    tilt_error * 0.75 + (tilt_error - current_ball_tilt_ s) / dt * 0.04 in
  st = Found /\
  current_ball_pan_ s' = pan_error /\
  current_ball_tilt_ s' = tilt_error /\
  current_ball_bottom_ s' = Point.z (ball_position_ s) /\
  out = publishHeadJoint pan_target tilt_target /\
  (Point.x (ball_position_ s) = 0.5 -> -0.25 < pan_error < -0.24) /\
  (current_ball_pan_ s = 0 -> 0 < eps -> 0.08 / eps < dt ->
   Rabs (pan_target - 0.75 * pan_error) < eps).
Proof.
  intros Hon Hz.
  rewrite (processTracking_found t s Hon) by (apply Rleb_false; exact Hz).
  cbv zeta. rewrite <- real_FOV_WIDTH, <- real_FOV_HEIGHT, <- !real_fov_error.
  unfold tracked, tracked_out.
  cbn [raw_error fst snd current_ball_pan_ current_ball_tilt_
       current_ball_bottom_ set_tracking_status_ set_ball_z set_current_ball
       set_ball_position_ set_prev_time_ set_count_not_found_ ball_position_
       prev_time_].
  rewrite !real_error_target.
  repeat (split; [reflexivity|]). split.
  - intros Hx. rewrite Hx. exact fov_error_half_width.
  - intros Hmem Heps Hdt. rewrite Hmem.
    set (e := fov_error (Point.x (ball_position_ s)) FOV_WIDTH).
    set (dt := delta_time _) in *.
    assert (He : Rabs e < 2) by apply fov_error_bounded.
    assert (Hpos : 0 < 0.08 / eps)
      by (apply Rdiv_lt_0_compat; lra).
    assert (Hdt0 : 0 < dt) by lra.
    replace (e * 0.75 + (e - 0) / dt * 0.04 - 0.75 * e)
      with (0.04 * e / dt) by (field; lra).
    unfold Rdiv. rewrite Rabs_mult, Rabs_mult.
    rewrite (Rabs_pos_eq 0.04) by lra.
    rewrite (Rabs_pos_eq (/ dt)) by (apply Rlt_le, Rinv_0_lt_compat; lra).
    apply Rlt_le_trans with (0.08 * / dt).
    + apply Rmult_lt_compat_r; [apply Rinv_0_lt_compat; lra|lra].
    + apply Rlt_le. apply (Rmult_lt_reg_r dt); [exact Hdt0|].
      rewrite Rmult_assoc, Rinv_l by lra.
      apply (Rmult_lt_compat_r eps) in Hdt; [|exact Heps].
      unfold Rdiv in Hdt. rewrite Rmult_assoc, Rinv_l in Hdt by lra. lra.
Qed.

End RealClaims.

(** ** Runs of periods without detection *)

Section MissFacts.
Context {D : Type} {ops : DoubleOps D}.
Local Open Scope Z_scope.

Implicit Types (s : BallTracker D) (t : Time.t).

(** A held circle of size 0 has size 0 after the period. *)
Lemma processTracking_keeps_zero t s :
  Point.z (ball_position_ s) = dint 0 ->
  Point.z (ball_position_ (snd (fst (processTracking t s)))) = dint 0.
Proof.
  intros Hz. unfold processTracking.
  destruct (on_tracking_ s); cbn [negb]; [|reflexivity].
  pose proof (check_ball_position_frame s) as Hf.
  destruct (check_ball_position s) as [[st s1] scan]; cbn [fst snd] in *.
  rewrite Hf.
  destruct st; [exact Hz| |];
    destruct (raw_error _ _) as [[xe ye] bs]; reflexivity.
Qed.

(** [n] periods in a row without detection add [n] to the counter, as
    long as it stays within [NOT_FOUND_THRESHOLD]. *)
Lemma misses_count (Hzero : ((dint 0 : D) <=? dint 0)%dbl = true) t (n : nat) :
  forall s,
    on_tracking_ s = true ->
    Point.z (ball_position_ s) = dint 0 ->
    count_not_found_ s + Z.of_nat n <= NOT_FOUND_THRESHOLD ->
    let s' := fst (run (repeat (Tick t) n) s) in
    on_tracking_ s' = true /\
    Point.z (ball_position_ s') = dint 0 /\
    count_not_found_ s' = count_not_found_ s + Z.of_nat n.
Proof.
  induction n as [|n IH]; intros s Hon Hz Hle; cbv zeta.
  - cbn [repeat run fst]. repeat split; try assumption. lia.
  - cbn [repeat]. rewrite run_cons, step_tick. cbn [fst snd].
    assert (Hc : count_not_found_ (snd (fst (processTracking t s)))
                 = count_not_found_ s + 1).
    { rewrite processTracking_count. unfold next_count.
      rewrite Hon, Hz, Hzero. cbn [negb].
      unfold NOT_FOUND_THRESHOLD in *.
      destruct (50 <? count_not_found_ s + 1) eqn:Hn;
        [apply Z.ltb_lt in Hn; lia|reflexivity]. }
    destruct (IH (snd (fst (processTracking t s)))) as (Hon' & Hz' & Hc').
    + rewrite processTracking_on_tracking. exact Hon.
    + apply processTracking_keeps_zero. exact Hz.
    + rewrite Hc. lia.
    + repeat split; try assumption. rewrite Hc', Hc. lia.
Qed.

End MissFacts.

(** ** IEEE binary64: the division by a zero [dt] *)

Section Binary64Facts.
Variables libm_atan libm_tan : float -> float.

(** The decimal literals of the file, as the compiler rounds them. *)
Lemma binary64_literals :
  let B := Binary64 libm_atan libm_tan in
  @ddec float B 7 1 = 0x1.6666666666666p-1%float /\
  @p_gain float B = 0x1.8p-1%float /\
  @d_gain float B = 0x1.47ae147ae147bp-5%float /\
  @ddec float B 1 9 = 0x1.12e0be826d695p-30%float /\
  @FOV_WIDTH float B = 0x1.d7d348bd51d04p-2%float /\
  @min_angle float B = 0x1.1df46a2529d39p-6%float.
Proof. vm_compute. repeat split; reflexivity. Qed.

Lemma binary64_zero_le_zero :
  @dle float (Binary64 libm_atan libm_tan)
    (@dint float (Binary64 libm_atan libm_tan) 0)
    (@dint float (Binary64 libm_atan libm_tan) 0) = true.
Proof. reflexivity. Qed.

(** A [Waiting] period at the clock value of the previous one: the
    division by [delta_time = 0] yields an infinite pan target and an
    undefined tilt target, and both are published. *)
Lemma binary64_zero_dt_is_divided_by :
  snd (@processTracking float (Binary64 libm_atan libm_tan)
         (Time.mk 10 0)
         (mkBallTracker true 0 true 0.25%float 0%float 5%float Found
            (Point.mk 0.5%float 0.25%float 0%float) (Time.mk 10 0)))
  = [AngleOffset neg_infinity nan].
Proof. vm_compute. reflexivity. Qed.

End Binary64Facts.

(** ** The derivative term *)

Section DivisionByZero.
Variables libm_atan libm_tan : float -> float.

Lemma div_by_zero_not_finite (x : float) : not_finite (x / 0)%float.
Proof.
  unfold not_finite. rewrite FloatAxioms.div_spec.
  change (Prim2SF 0%float) with (S754_zero false).
  destruct (Prim2SF x) as [sx|sx| |sx mx ex]; exact I.
Qed.

Lemma mul_gain_not_finite (x : float) :
  not_finite x ->
  not_finite (x * @d_gain float (Binary64 libm_atan libm_tan))%float.
Proof.
  unfold not_finite. rewrite FloatAxioms.mul_spec.
  destruct (Prim2SF (@d_gain float (Binary64 libm_atan libm_tan)))
    as [sd|sd| |sd md ed] eqn:Hd; try (vm_compute in Hd; discriminate Hd).
  destruct (Prim2SF x) as [sx|sx| |sx mx ex]; intros H;
    try contradiction; exact I.
Qed.

Lemma add_not_finite (x y : float) : not_finite y -> not_finite (x + y)%float.
Proof.
  unfold not_finite. rewrite FloatAxioms.add_spec.
  destruct (Prim2SF y) as [sy|sy| |sy my ey]; intros H; try contradiction;
    destruct (Prim2SF x) as [sx|sx| |sx mx ex]; try exact I;
    destruct sx, sy; exact I.
Qed.

Lemma fabs_not_finite_not_below (x m : float) :
  not_finite x -> PrimFloat.ltb (PrimFloat.abs x) m = false.
Proof.
  unfold not_finite. rewrite FloatAxioms.ltb_spec, FloatAxioms.abs_spec.
  destruct (Prim2SF x) as [sx|sx| |sx mx ex]; intros H; try contradiction.
  - destruct (Prim2SF m) as [sm|sm| |sm mm em]; try reflexivity.
    destruct sm; reflexivity.
  - reflexivity.
Qed.

(** The target of an axis when [delta_time] is zero. *)
Lemma binary64_target_at_zero_dt (error current : float) :
  not_finite
    (@error_target float (Binary64 libm_atan libm_tan) error current 0%float).
Proof.
  unfold error_target. cbn [dadd dsub dmul ddiv Binary64].
  apply add_not_finite, mul_gain_not_finite, div_by_zero_not_finite.
Qed.

Lemma binary64_delta_time_zero (t prev : Time.t) :
  Time.toNSec t = Time.toNSec prev ->
  @delta_time float (Binary64 libm_atan libm_tan) (Time.sub t prev) = 0%float.
Proof.
  intros H. unfold Time.sub. rewrite H, Z.sub_diag. reflexivity.
Qed.

(** In binary64, a period that returns [Waiting] or [Found] at the clock
    value of [prev_time_] publishes a joint state whose two angles are
    infinite or NaN. *)
Lemma binary64_zero_dt (t : Time.t) (s : BallTracker float) :
  fst (fst (@processTracking float (Binary64 libm_atan libm_tan) t s))
  <> NotFound ->
  Time.toNSec t = Time.toNSec (prev_time_ s) ->
  exists pan tilt,
    snd (@processTracking float (Binary64 libm_atan libm_tan) t s)
    = [AngleOffset pan tilt] /\ not_finite pan /\ not_finite tilt.
Proof.
  intros Hst Hdt.
  destruct (@processTracking_tracking float (Binary64 libm_atan libm_tan)
              t s Hst) as [Hout _].
  cbv zeta in Hout. rewrite (binary64_delta_time_zero _ _ Hdt) in Hout.
  eexists. eexists. split; [|split].
  - rewrite Hout. unfold publishHeadJoint. cbn [dlt dfabs Binary64].
    rewrite fabs_not_finite_not_below
      by apply binary64_target_at_zero_dt.
    reflexivity.
  - apply binary64_target_at_zero_dt.
  - apply binary64_target_at_zero_dt.
Qed.

End DivisionByZero.

(** C2 (as amended).  On every period that returns [Waiting] or [Found],
    in every arithmetic and whatever the elapsed time [dt] (positive, zero
    or negative), the target of each axis is
    [error * p_gain + (error - remembered) / dt * d_gain], computed with
    the division of that arithmetic: the division by [dt] is not guarded.
    In IEEE binary64, when the clock value is the one remembered in
    [prev_time_] ([dt = 0]), the period publishes a joint state whose two
    angles are infinite or NaN.  Over the reals, for [dt <> 0], a negative
    [dt] included, the target equals [0.75 * error] exactly when the error
    equals the remembered one. *)
Theorem derivative_has_no_guard :
  (forall (D : Type) (ops : DoubleOps D) (t : Time.t) (s : BallTracker D),
      fst (fst (processTracking t s)) <> NotFound ->
      let st := fst (fst (processTracking t s)) in
      let dt := delta_time (Time.sub t (prev_time_ s)) in
      let x_error := fst (fst (raw_error st s)) in
      let y_error := snd (fst (raw_error st s)) in
      snd (processTracking t s) =
      publishHeadJoint
        (x_error * p_gain + (x_error - current_ball_pan_ s) / dt * d_gain)%dbl
        (y_error * p_gain + (y_error - current_ball_tilt_ s) / dt * d_gain)%dbl)
  /\
  (forall (libm_atan libm_tan : float -> float) (t : Time.t)
          (s : BallTracker float),
      fst (fst (@processTracking float (Binary64 libm_atan libm_tan) t s))
      <> NotFound ->
      Time.toNSec t = Time.toNSec (prev_time_ s) ->
      exists pan tilt,
        snd (@processTracking float (Binary64 libm_atan libm_tan) t s)
        = [AngleOffset pan tilt] /\ not_finite pan /\ not_finite tilt)
  /\
  (forall (t : Time.t) (s : BallTracker R),
      fst (fst (processTracking t s)) <> NotFound ->
      let st := fst (fst (processTracking t s)) in
      let dt := delta_time (Time.sub t (prev_time_ s)) in
      let x_error := fst (fst (raw_error st s)) in
      let y_error := snd (fst (raw_error st s)) in
      let pan :=
        (x_error * 0.75 + (x_error - current_ball_pan_ s) / dt * 0.04)%R in
      let tilt :=
        (y_error * 0.75 + (y_error - current_ball_tilt_ s) / dt * 0.04)%R in
      snd (processTracking t s) = publishHeadJoint pan tilt /\
      (dt <> 0%R ->
       (pan = (0.75 * x_error)%R <-> x_error = current_ball_pan_ s) /\
       (tilt = (0.75 * y_error)%R <-> y_error = current_ball_tilt_ s))).
Proof.
  split; [|split].
  - intros D ops t s Hst.
    destruct (processTracking_tracking t s Hst) as [Hout _]. exact Hout.
  - exact binary64_zero_dt.
  - exact real_targets.
Qed.

(** ** The largest circle, for sizes that are numbers *)

Section OrderedSizes.
Context {D : Type} {ops : DoubleOps D}.
Variable number : D -> Prop.
Hypothesis dle_total :
  forall a b, number a -> number b ->
              (a <=? b)%dbl = true \/ (b <=? a)%dbl = true.
Hypothesis dle_trans :
  forall a b c, number a -> number b -> number c ->
                (a <=? b)%dbl = true -> (b <=? c)%dbl = true ->
                (a <=? c)%dbl = true.
Hypothesis dlt_dle :
  forall a b, number a -> number b -> (a <? b)%dbl = negb (b <=? a)%dbl.

Lemma largest_circle_snoc_any (held c : Point.t D) circles :
  largest_circle held (circles ++ [c]) =
  keep_larger (largest_circle held circles) c.
Proof.
  unfold largest_circle. rewrite fold_left_app. reflexivity.
Qed.

(** Among numbers, what is below something strictly smaller is strictly
    smaller. *)
Lemma dlt_above (a r c : D) :
  number a -> number r -> number c ->
  ((a <? r)%dbl = true \/ (a <=? r)%dbl = true) ->
  (r <? c)%dbl = true -> (a <? c)%dbl = true.
Proof.
  intros Ha Hr Hc Har Hrc.
  rewrite dlt_dle in Hrc |- * by assumption.
  apply negb_true_iff in Hrc. apply negb_true_iff.
  destruct ((c <=? a)%dbl) eqn:Hca; [|reflexivity].
  assert (Hle : (a <=? r)%dbl = true).
  { destruct Har as [Hlt|Hle]; [|exact Hle].
    rewrite dlt_dle in Hlt by assumption. apply negb_true_iff in Hlt.
    destruct (dle_total a r Ha Hr) as [H|H]; [exact H|congruence]. }
  rewrite (dle_trans c a r Hc Ha Hr Hca Hle) in Hrc. discriminate.
Qed.

Lemma largest_number_split (held : Point.t D) circles :
  number (Point.z held) ->
  Forall (fun c => number (Point.z c)) circles ->
  exists before after,
    held :: circles = before ++ largest_circle held circles :: after /\
    Forall (fun c => (Point.z c <? Point.z (largest_circle held circles))%dbl
                     = true) before /\
    Forall (fun c => (Point.z c <=? Point.z (largest_circle held circles))%dbl
                     = true) after /\
    number (Point.z (largest_circle held circles)).
Proof.
  intros Hheld.
  induction circles as [|c cs IH] using rev_ind; intros Hall.
  - exists [], []. repeat split; try constructor. exact Hheld.
  - apply Forall_app in Hall as [Hcs Hc]. inversion Hc as [|? ? Hnc _]; subst.
    destruct (IH Hcs) as (before & after & Heq & Hb & Ha & Hr).
    rewrite largest_circle_snoc_any. unfold keep_larger.
    set (r := largest_circle held cs) in *.
    destruct ((Point.z c <=? Point.z r)%dbl) eqn:Hcr.
    + exists before, (after ++ [c]). split; [|split; [|split]].
      * rewrite app_comm_cons, Heq, <- app_assoc. reflexivity.
      * exact Hb.
      * apply Forall_app. split; [exact Ha|].
        constructor; [exact Hcr|constructor].
      * exact Hr.
    + assert (Hrc : (Point.z r <? Point.z c)%dbl = true)
        by (rewrite dlt_dle by assumption; rewrite Hcr; reflexivity).
      assert (Hnum : Forall (fun a => number (Point.z a)) (held :: cs))
        by (constructor; assumption).
      exists (held :: cs), []. split; [|split; [|split]].
      * rewrite app_comm_cons. reflexivity.
      * rewrite Heq in Hnum |- *.
        apply Forall_app in Hnum as [Hnb Hna].
        inversion Hna as [|? ? _ Hna']; subst.
        apply Forall_app. split.
        -- rewrite Forall_forall in *. intros a Hin.
           apply (dlt_above (Point.z a) (Point.z r) (Point.z c));
             auto.
        -- constructor; [exact Hrc|].
           rewrite Forall_forall in *. intros a Hin.
           apply (dlt_above (Point.z a) (Point.z r) (Point.z c));
             auto.
      * constructor.
      * exact Hnc.
Qed.

(** C7 (as amended).  In an arithmetic whose comparison orders the sizes
    that are numbers (the reals; the doubles other than NaN), for every
    tracker and every list of reported circles whose sizes, like the held
    one's, are numbers: the circle held after [ballPositionCallback] is the
    first one of largest size in the sequence made of the circle held
    before followed by the reported ones (every earlier one is strictly
    smaller, no later one is larger), so it is either the circle held
    before or a reported one strictly larger than it; a single report
    replaces the held circle exactly when its size is strictly larger; and
    reporting in several messages is the same as reporting their
    concatenation. *)
Theorem largest_number_first_seen (s : BallTracker D)
        (circles more : list (Point.t D)) (c : Point.t D) :
  number (Point.z (ball_position_ s)) ->
  Forall (fun c => number (Point.z c)) circles ->
  number (Point.z c) ->
  let held := ball_position_ s in
  let r := ball_position_ (ballPositionCallback circles s) in
  (exists before after,
      held :: circles = before ++ r :: after /\
      Forall (fun c => (Point.z c <? Point.z r)%dbl = true) before /\
      Forall (fun c => (Point.z c <=? Point.z r)%dbl = true) after) /\
  (r = held \/ (In r circles /\ (Point.z held <? Point.z r)%dbl = true)) /\
  ball_position_ (ballPositionCallback [c] s) =
    (if (Point.z held <? Point.z c)%dbl then c else held) /\
  ballPositionCallback more (ballPositionCallback circles s) =
    ballPositionCallback (circles ++ more) s.
Proof.
  intros Hheld Hall Hc. cbv zeta.
  cbn [ballPositionCallback ball_position_ set_ball_position_].
  destruct (largest_number_split (ball_position_ s) circles Hheld Hall)
    as (before & after & Heq & Hb & Ha & _).
  split; [exists before, after; repeat split; assumption|].
  split; [|split].
  - remember (largest_circle (ball_position_ s) circles) as r eqn:Hr.
    clear Hr.
    destruct before as [|b0 before].
    + left. cbn [app] in Heq. congruence.
    + right. cbn [app] in Heq. injection Heq as Hb0 Hcs. subst b0.
      split.
      * rewrite Hcs. apply in_or_app. right. left. reflexivity.
      * inversion Hb. assumption.
  - unfold largest_circle, keep_larger. cbn [fold_left].
    rewrite dlt_dle by assumption.
    destruct ((Point.z c <=? Point.z (ball_position_ s))%dbl); reflexivity.
  - unfold ballPositionCallback, largest_circle.
    cbn [ball_position_ set_ball_position_ use_head_scan_ count_not_found_
         on_tracking_ current_ball_pan_ current_ball_tilt_
         current_ball_bottom_ tracking_status_ prev_time_].
    rewrite fold_left_app. reflexivity.
Qed.

End OrderedSizes.

(** ** The doubles that are numbers are ordered *)

Section Binary64Order.

Lemma SFleb_key (f g : spec_float) :
  f <> S754_nan -> g <> S754_nan ->
  (SFleb f g = true <-> lex_le (SFkey f) (SFkey g)).
Proof.
  intros Hf Hg. unfold SFleb, SFcompare, SFkey, lex_le.
  destruct f as [sf|sf| |sf mf ef], g as [sg|sg| |sg mg eg];
    try congruence;
    try destruct sf; try destruct sg;
    try (split; [intros _; lia|reflexivity]);
    try (split; [discriminate|lia]);
    change (Pos.compare_cont Eq mf mg) with (Pos.compare mf mg);
    destruct (Z.compare_spec ef eg); destruct (Pos.compare_spec mf mg);
    cbn [CompOpp];
    (split;
     [intros H1; try discriminate H1; lia|intros H1; try reflexivity; lia]).
Qed.

Lemma SFltb_key (f g : spec_float) :
  f <> S754_nan -> g <> S754_nan ->
  (SFltb f g = true <-> ~ lex_le (SFkey g) (SFkey f)).
Proof.
  intros Hf Hg. unfold SFltb, SFcompare, SFkey, lex_le.
  destruct f as [sf|sf| |sf mf ef], g as [sg|sg| |sg mg eg];
    try congruence;
    try destruct sf; try destruct sg;
    try (split; [intros _; lia|reflexivity]);
    try (split; [discriminate|lia]);
    change (Pos.compare_cont Eq mf mg) with (Pos.compare mf mg);
    destruct (Z.compare_spec ef eg); destruct (Pos.compare_spec mf mg);
    cbn [CompOpp];
    (split;
     [intros H1; try discriminate H1; lia|intros H1; try reflexivity; lia]).
Qed.

Lemma lex_le_total (a b : Z * Z * Z) : lex_le a b \/ lex_le b a.
Proof.
  destruct a as [[a1 a2] a3], b as [[b1 b2] b3]. unfold lex_le. lia.
Qed.

Lemma lex_le_trans (a b c : Z * Z * Z) :
  lex_le a b -> lex_le b c -> lex_le a c.
Proof.
  destruct a as [[a1 a2] a3], b as [[b1 b2] b3], c as [[c1 c2] c3].
  unfold lex_le. lia.
Qed.

Lemma binary64_leb_total (x y : float) :
  is_number x -> is_number y ->
  PrimFloat.leb x y = true \/ PrimFloat.leb y x = true.
Proof.
  intros Hx Hy. rewrite !FloatAxioms.leb_spec.
  destruct (lex_le_total (SFkey (Prim2SF x)) (SFkey (Prim2SF y))) as [H|H];
    [left|right]; apply SFleb_key; assumption.
Qed.

Lemma binary64_leb_trans (x y z : float) :
  is_number x -> is_number y -> is_number z ->
  PrimFloat.leb x y = true -> PrimFloat.leb y z = true ->
  PrimFloat.leb x z = true.
Proof.
  intros Hx Hy Hz. rewrite !FloatAxioms.leb_spec. intros H1 H2.
  apply SFleb_key in H1, H2; try assumption.
  apply SFleb_key; try assumption. eapply lex_le_trans; eassumption.
Qed.

Lemma binary64_ltb_leb (x y : float) :
  is_number x -> is_number y ->
  PrimFloat.ltb x y = negb (PrimFloat.leb y x).
Proof.
  intros Hx Hy. rewrite FloatAxioms.ltb_spec, FloatAxioms.leb_spec.
  pose proof (SFltb_key _ _ Hx Hy) as Hlt.
  pose proof (SFleb_key _ _ Hy Hx) as Hle.
  destruct (SFltb (Prim2SF x) (Prim2SF y)),
           (SFleb (Prim2SF y) (Prim2SF x)); try reflexivity; exfalso.
  - apply (proj1 Hlt); [reflexivity|]. apply Hle. reflexivity.
  - assert (H : ~ lex_le (SFkey (Prim2SF y)) (SFkey (Prim2SF x)))
      by (intros H; apply Hle in H; discriminate H).
    apply Hlt in H. discriminate H.
Qed.

(** Counterexample to C7.  In binary64, from the tracker as constructed,
    the message with the sizes 10, NaN and 1 leaves the third circle held,
    of size 1, although the first one is larger. *)
Lemma nan_size_hides_the_largest :
  ball_position_
    (@ballPositionCallback float Binary64_nolibm
       [Point.mk 0.5 0 10; Point.mk 0 0.5 nan; Point.mk 0.25 0 1]%float
       (@init float Binary64_nolibm))
  = (Point.mk 0.25 0 1)%float /\
  PrimFloat.ltb 1 10 = true.
Proof. vm_compute. split; reflexivity. Qed.

(** [largest_number_first_seen] in binary64, on a message with the sizes
    10, 20, 20 and 5. *)
Lemma largest_of_four_doubles :
  let s := @init float Binary64_nolibm in
  let circles := [Point.mk 0.5 0 10; Point.mk 0 0.5 20;
                  Point.mk 0.25 0 20; Point.mk 0 0 5]%float in
  let held := ball_position_ s in
  let r :=
    ball_position_ (@ballPositionCallback float Binary64_nolibm circles s) in
  (exists before after,
      held :: circles = before ++ r :: after /\
      Forall (fun c => PrimFloat.ltb (Point.z c) (Point.z r) = true) before /\
      Forall (fun c => PrimFloat.leb (Point.z c) (Point.z r) = true) after) /\
  (r = held \/
   (In r circles /\ PrimFloat.ltb (Point.z held) (Point.z r) = true)) /\
  ball_position_
    (@ballPositionCallback float Binary64_nolibm
       [(Point.mk 0.5 0.5 1)%float] s) =
    (if PrimFloat.ltb (Point.z held) 1 then (Point.mk 0.5 0.5 1)%float
     else held) /\
  @ballPositionCallback float Binary64_nolibm []
    (@ballPositionCallback float Binary64_nolibm circles s) =
  @ballPositionCallback float Binary64_nolibm (circles ++ []) s.
Proof.
  apply (@largest_number_first_seen float Binary64_nolibm is_number
           binary64_leb_total binary64_leb_trans binary64_ltb_leb);
    [|repeat constructor|]; unfold is_number; vm_compute; discriminate.
Defined.

End Binary64Order.

(** ** Scenarios over the reals *)

Section Scenarios.
Local Open Scope R_scope.

Lemma real_zero_le_zero : ((dint 0 : R) <=? dint 0)%dbl = true.
Proof. apply Rleb_true. cbn. lra. Qed.

(** A larger circle replaces the held one. *)
Lemma first_sighting (p : Point.t R) (s : BallTracker R) :
  Point.z (ball_position_ s) < Point.z p ->
  ballPositionCallback [p] s = set_ball_position_ p s.
Proof.
  intros Hz. unfold ballPositionCallback, largest_circle. cbn [fold_left].
  rewrite keep_larger_real.
  destruct (Rlt_dec _ _); [reflexivity|contradiction].
Qed.

(** The mapping sends the centre of the image to the angle 0. *)
Lemma fov_error_centre (fov : R) : fov_error 0 fov = 0.
Proof. rewrite real_fov_error, Rmult_0_l, atan_0. lra. Qed.

Lemma publishHeadJoint_small (pan tilt : R) :
  Rabs pan < 0.017 -> Rabs tilt < 0.017 -> publishHeadJoint pan tilt = [].
Proof.
  intros Hp Ht. unfold publishHeadJoint. cbn [dlt dfabs RealOps].
  rewrite real_min_angle, !Rltb_true by lra. reflexivity.
Qed.

Lemma publishHeadJoint_large_pan (pan tilt : R) :
  0.018 <= Rabs pan -> publishHeadJoint pan tilt = [AngleOffset pan tilt].
Proof.
  intros Hp. unfold publishHeadJoint. cbn [dlt dfabs RealOps].
  rewrite real_min_angle, Rltb_false by lra. reflexivity.
Qed.

(** Counterexample to C1.  Start, a circle at [x = 0.5], one period, stop:
    the period that then runs with tracking off leaves [tracking_status_]
    at [Found], and [current_ball_pan_] below -0.24, not at the value 0 of
    the constructor. *)
Lemma inactive_period_keeps_found_status :
  let s := fst (run [Command "start"; Circles [Point.mk 0.5 0 10];
                     Tick (Time.mk 1 0); Command "stop"] (@init R _)) in
  let '(st, s', out) := processTracking (Time.mk 2 0) s in
  on_tracking_ s = false /\ tracking_status_ s' = Found /\
  current_ball_pan_ s' < -0.24.
Proof.
  cbv zeta. rewrite !run_cons, !step_tick. cbn [run fst snd step].
  change (ballTrackerCommandCallback "start" init)
    with (startTracking (@init R _), @nil (Published R)).
  cbn [fst].
  rewrite first_sighting by (cbn; lra).
  rewrite (processTracking_found (Time.mk 1 0));
    [|reflexivity|apply Rleb_false; cbn; lra].
  cbn [fst snd].
  rewrite processTracking_inactive by reflexivity.
  split; [reflexivity|]. split; [reflexivity|].
  change (fov_error 0.5 (@FOV_WIDTH R _) < -0.24).
  apply fov_error_half_width.
Qed.

(** Counterexample to C3.  For the circle at [x = 0.5] the pan error of
    the [Found] period is below -0.24 rad, whereas the formula at the
    half-angle 13.2 degrees, and at 0.2307 rad, gives a value between
    -0.118 and -0.116 rad (and neither is near -0.0574). *)
Lemma found_period_uses_full_angle :
  let s := fst (run [Command "start"; Circles [Point.mk 0.5 0 10]]
                    (@init R _)) in
  let '(st, s', out) := processTracking (Time.mk 1 0) s in
  st = Found /\ current_ball_pan_ s' < -0.24 /\
  -0.118 < - atan (0.5 * tan (13.2 * 3.14159265358979323846 / 180)) /\
  -0.118 < - atan (0.5 * tan 0.2307) < -0.116.
Proof.
  cbv zeta. rewrite !run_cons. cbn [run fst snd step].
  change (ballTrackerCommandCallback "start" init)
    with (startTracking (@init R _), @nil (Published R)).
  cbn [fst].
  rewrite first_sighting by (cbn; lra).
  rewrite processTracking_found;
    [|reflexivity|apply Rleb_false; cbn; lra].
  split; [reflexivity|]. split; [|split].
  - change (fov_error 0.5 (@FOV_WIDTH R _) < -0.24).
    apply fov_error_half_width.
  - rewrite <- real_fov_error. apply fov_error_half_13_2.
  - rewrite <- real_fov_error. apply fov_error_half_2307.
Qed.

(** Counterexample to C6.  Start, a circle at the centre of the image, one
    period, stop: tracking is off and nothing at all was published. *)
Lemma stop_at_centre_publishes_nothing :
  let r := run [Command "start"; Circles [Point.mk 0 0 10];
                Tick (Time.mk 1 0); Command "stop"] (@init R _) in
  on_tracking_ (fst r) = false /\ snd r = [].
Proof.
  cbv zeta. rewrite !run_cons, !step_tick. cbn [run fst snd step].
  change (ballTrackerCommandCallback "start" init)
    with (startTracking (@init R _), @nil (Published R)).
  cbn [fst snd app].
  rewrite first_sighting by (cbn; lra).
  rewrite processTracking_found;
    [|reflexivity|apply Rleb_false; cbn; lra].
  cbn [fst snd].
  split; [reflexivity|].
  rewrite app_nil_r.
  change (ballTrackerCommandCallback "stop" ?s) with (stopTracking s).
  unfold stopTracking, tracked_out, tracked.
  cbn [fst snd raw_error ball_position_ Point.x Point.y Point.z
       set_on_tracking_ set_tracking_status_ set_ball_z set_ball_position_
       set_current_ball set_prev_time_ set_count_not_found_ startTracking
       current_ball_pan_ current_ball_tilt_ prev_time_ init].
  rewrite !fov_error_centre, !real_error_target.
  assert (Hdt : delta_time (Time.sub (Time.mk 1 0) Time.zero) = 1)
    by (cbn; lra).
  rewrite Hdt.
  replace (0 * 0.75 + (0 - dint 0) / 1 * 0.04) with 0 by (cbn; lra).
  rewrite !publishHeadJoint_small by (rewrite Rabs_R0; lra).
  reflexivity.
Qed.

End Scenarios.

Section MoreScenarios.
Local Open Scope R_scope.

(** Counterexample to C2.  Start, a circle at [x = 0.5], a [Found] period
    at clock 10 s, then a period without detection at clock 9 s (the
    clock went back): the period returns [Waiting] with
    [delta_time = -1 <= 0]; its pan error is [0.7 * e], with [e] the
    remembered pan, and the pan it publishes is [0.537 * e], not
    [0.75 * (0.7 * e)]. *)
Lemma backward_clock_changes_command :
  let s := fst (run [Command "start"; Circles [Point.mk 0.5 0 10];
                     Tick (Time.mk 10 0)] (@init R _)) in
  let e := current_ball_pan_ s in
  let '(st, s', out) := processTracking (Time.mk 9 0) s in
  st = Waiting /\
  delta_time (Time.sub (Time.mk 9 0) (prev_time_ s)) = -1 /\
  fst (fst (raw_error Waiting s)) = e * 0.7 /\
  out = [AngleOffset (0.537 * e) 0] /\
  0.537 * e <> 0.75 * (e * 0.7).
Proof.
  cbv zeta. rewrite !run_cons, !step_tick. cbn [run fst snd step].
  change (ballTrackerCommandCallback "start" init)
    with (startTracking (@init R _), @nil (Published R)).
  cbn [fst].
  rewrite first_sighting by (cbn; lra).
  rewrite (processTracking_found (Time.mk 10 0));
    [|reflexivity|apply Rleb_false; cbn; lra].
  cbn [fst snd].
  rewrite processTracking_waiting;
    [|reflexivity|apply real_zero_le_zero|reflexivity|discriminate].
  pose proof fov_error_half_width as He.
  unfold tracked_out, tracked.
  cbn [fst snd raw_error ball_position_ Point.x Point.y Point.z
       set_on_tracking_ set_tracking_status_ set_ball_z set_ball_position_
       set_current_ball set_prev_time_ set_count_not_found_ startTracking
       current_ball_pan_ current_ball_tilt_ prev_time_ init].
  rewrite fov_error_centre, !real_error_target.
  set (e := fov_error 0.5 FOV_WIDTH) in *.
  assert (Hdt : delta_time (Time.sub (Time.mk 9 0) (Time.mk 10 0)) = -1)
    by (cbn; lra).
  rewrite Hdt.
  split; [reflexivity|]. split; [reflexivity|]. split; [cbn; lra|].
  split; [|lra].
  replace (e * ddec 7 1 * 0.75 + (e * ddec 7 1 - e) / -1 * 0.04)
    with (0.537 * e) by (cbn; lra).
  replace (0 * ddec 7 1 * 0.75 + (0 * ddec 7 1 - 0) / -1 * 0.04)
    with 0 by (cbn; lra).
  apply publishHeadJoint_large_pan.
  rewrite Rabs_left by lra. lra.
Qed.

(** Counterexample to C8.  Start, then 50 periods without detection: the
    counter is 50; on the next period without detection it is 0, not
    51. *)
Lemma streak_restarts_after_fifty :
  let s := fst (run (Command "start" :: repeat (Tick (Time.mk 1 0)) 50)
                    (@init R _)) in
  let '(st, s', out) := processTracking (Time.mk 1 0) s in
  on_tracking_ s = true /\ Point.z (ball_position_ s) <= 0 /\
  count_not_found_ s = 50%Z /\ count_not_found_ s' = 0%Z.
Proof.
  cbv zeta. rewrite run_cons. cbn [fst step].
  change (ballTrackerCommandCallback "start" init)
    with (startTracking (@init R _), @nil (Published R)).
  cbn [fst].
  destruct (misses_count real_zero_le_zero (Time.mk 1 0) 50
              (startTracking init))
    as (Hon & Hz & Hc);
    [reflexivity|reflexivity|unfold NOT_FOUND_THRESHOLD; cbn; lia|].
  cbn [count_not_found_ startTracking set_on_tracking_ init] in Hc.
  set (s := fst (run _ _)) in *.
  pose proof (processTracking_count (Time.mk 1 0) s) as Hn.
  destruct (processTracking (Time.mk 1 0) s) as [[st s'] out].
  cbn [fst snd] in Hn.
  split; [exact Hon|]. split; [rewrite Hz; cbn; lra|].
  split; [exact Hc|].
  rewrite Hn. unfold next_count.
  rewrite Hon, Hz, real_zero_le_zero, Hc. reflexivity.
Qed.

End MoreScenarios.

(** ** The theorems at work on concrete trackers *)

Section Instances.
Local Open Scope R_scope.

(** [inactive_period_is_quiet] on the tracker as constructed. *)
Lemma inactive_period_is_quiet_at_start :
  let '(st, s', out) := processTracking (Time.mk 1 0) (@init R _) in
  out = [] /\ st = NotFound /\
  Point.z (ball_position_ s') = dint 0 /\
  count_not_found_ s' = 0%Z /\
  current_ball_pan_ s' = current_ball_pan_ (@init R _) /\
  current_ball_tilt_ s' = current_ball_tilt_ (@init R _) /\
  current_ball_bottom_ s' = current_ball_bottom_ (@init R _).
Proof.
  exact (inactive_period_is_quiet (Time.mk 1 0) init eq_refl).
Defined.

(** [streak_counts_up_or_restarts] on the first period after [start]. *)
Lemma streak_counts_up_after_start :
  count_not_found_
    (snd (fst (processTracking (Time.mk 1 0) (startTracking (@init R _)))))
  = 1%Z.
Proof.
  pose proof (streak_counts_up_or_restarts (Time.mk 1 0)
                (startTracking (@init R _)) eq_refl) as H.
  destruct (processTracking (Time.mk 1 0) (startTracking init))
    as [[st s'] out].
  cbn [fst snd]. rewrite H.
  change (Point.z (ball_position_ (startTracking (@init R _))))
    with (dint 0 : R).
  rewrite real_zero_le_zero. reflexivity.
Defined.

(** [count_not_found_in_range] on the tracker as constructed. *)
Lemma count_not_found_in_range_at_start :
  let '(st, s', out) := processTracking (Time.mk 1 0) (@init R _) in
  (0 <= count_not_found_ s' <= NOT_FOUND_THRESHOLD)%Z.
Proof.
  exact (proj1 (count_not_found_in_range (Time.mk 1 0) init []) (Z.le_refl 0)).
Defined.

(** [scan_request_exactly_on_crossing] on the 51st period without
    detection. *)
Lemma scan_request_after_fifty_misses :
  let s := mkBallTracker true 50 true 0 0 0 NotFound (Point.mk 0 0 0)
             Time.zero in
  let '(st, s', out) := processTracking (Time.mk 1 0) s in
  out = [ScanRequest] /\ count_not_found_ s' = 0%Z /\
  filter is_scan (snd (run [Tick (Time.mk 2 0); Tick (Time.mk 3 0)] s')) = [].
Proof.
  cbv zeta.
  pose proof (scan_request_exactly_on_crossing (Time.mk 1 0)
                (mkBallTracker true 50 true 0 0 0 NotFound (Point.mk 0 0 0)
                   Time.zero)
                [Tick (Time.mk 2 0); Tick (Time.mk 3 0)]) as H.
  destruct (processTracking _ _) as [[st s'] out].
  destruct H as [Hscan Hcross].
  assert (Hc : crossing (mkBallTracker true 50 true 0 0 0 NotFound
                           (Point.mk 0 0 0) Time.zero) = true).
  { unfold crossing. cbn [on_tracking_ ball_position_ Point.z andb].
    change (@dle R _ 0 (dint 0)) with (Rleb 0 0).
    rewrite Rleb_true by lra. reflexivity. }
  destruct (Hcross Hc) as (_ & Hout & Hcount & Hquiet).
  rewrite Hc in Hscan. cbn [use_head_scan_ andb] in Hscan.
  split; [rewrite Hout; exact Hscan|]. split; [exact Hcount|].
  apply Hquiet. unfold NOT_FOUND_THRESHOLD. cbn. lia.
Defined.

(** [found_then_waiting]: a sighting, then two periods without detection,
    with a message without positive size in between. *)
Lemma found_then_waiting_twice :
  let s0 := set_ball_position_ (Point.mk 0 0 10) (startTracking (@init R _)) in
  let '(st, s, out) := processTracking (Time.mk 1 0) s0 in
  tracking_status_
    (fst (run [Tick (Time.mk 2 0); Circles [Point.mk 0.1 0.1 0];
               Tick (Time.mk 3 0)] s)) = Waiting.
Proof.
  cbv zeta.
  pose proof (found_then_waiting real_zero_le_zero (Time.mk 1 0)
                (set_ball_position_ (Point.mk 0 0 10)
                   (startTracking (@init R _)))
                [Tick (Time.mk 2 0); Circles [Point.mk 0.1 0.1 0];
                 Tick (Time.mk 3 0)] eq_refl) as H.
  rewrite processTracking_found in *;
    try reflexivity; try (apply Rleb_false; cbn; lra).
  apply H.
  - reflexivity.
  - cbn [forallb no_detection Point.z andb].
    change (@dle R _ 0 (dint 0)) with (Rleb 0 0).
    rewrite Rleb_true by lra. reflexivity.
  - unfold WAITING_THRESHOLD. cbn. lia.
Defined.

End Instances.

Section MoreInstances.
Local Open Scope R_scope.


(** [derivative_has_no_guard] on the period of a first sighting. *)
Lemma first_sighting_command :
  let s := set_ball_position_ (Point.mk 0.5 0 10) (startTracking (@init R _)) in
  let t := Time.mk 1 0 in
  let st := fst (fst (processTracking t s)) in
  let dt := delta_time (Time.sub t (prev_time_ s)) in
  let x_error := fst (fst (raw_error st s)) in
  let y_error := snd (fst (raw_error st s)) in
  snd (processTracking t s) =
  publishHeadJoint
    (x_error * 0.75 + (x_error - current_ball_pan_ s) / dt * 0.04)
    (y_error * 0.75 + (y_error - current_ball_tilt_ s) / dt * 0.04).
Proof.
  assert (H : fst (fst (processTracking (Time.mk 1 0)
                          (set_ball_position_ (Point.mk 0.5 0 10)
                             (startTracking (@init R _))))) <> NotFound).
  { rewrite processTracking_found;
      [discriminate|reflexivity|apply Rleb_false; cbn; lra]. }
  exact (proj1 (proj2 (proj2 derivative_has_no_guard) (Time.mk 1 0)
                  (set_ball_position_ (Point.mk 0.5 0 10)
                     (startTracking (@init R _))) H)).
Defined.

(** [found_period_raw_errors] on the period of a first sighting. *)
Lemma first_sighting_pan_error :
  current_ball_pan_
    (snd (fst (processTracking (Time.mk 1 0)
                 (set_ball_position_ (Point.mk 0.5 0 10)
                    (startTracking (@init R _))))))
  = - atan (0.5 * tan (26.4 * 3.14159265358979323846 / 180)).
Proof.
  assert (Hz : 0 < Point.z (ball_position_
                              (set_ball_position_ (Point.mk 0.5 0 10)
                                 (startTracking (@init R _)))))
    by (cbn; lra).
  pose proof (found_period_raw_errors (Time.mk 1 0)
                (set_ball_position_ (Point.mk 0.5 0 10)
                   (startTracking (@init R _))) 1 eq_refl Hz) as H.
  destruct (processTracking _ _) as [[st s'] out].
  exact (proj1 (proj2 H)).
Defined.

End MoreInstances.

(** * Beyond the claims *)

(** ** Commands *)

Section CommandExtras.
Context {D : Type} {ops : DoubleOps D}.

Implicit Types (s : BallTracker D) (t : Time.t).

Lemma set_on_tracking_same s : set_on_tracking_ (on_tracking_ s) s = s.
Proof. destruct s; reflexivity. Qed.

(** The mode a command string leaves behind. *)
Lemma command_mode (data : string) s :
  on_tracking_ (fst (ballTrackerCommandCallback data s)) =
  if String.eqb data "start" then true
  else if String.eqb data "stop" then false
  else if String.eqb data "toggle_start" then negb (on_tracking_ s)
  else on_tracking_ s.
Proof.
  unfold ballTrackerCommandCallback, startTracking, stopTracking.
  destruct (String.eqb data "start"); [reflexivity|].
  destruct (String.eqb data "stop"); [reflexivity|].
  destruct (String.eqb data "toggle_start"); [|reflexivity].
  destruct (on_tracking_ s); reflexivity.
Qed.

(** X1.  Whatever the command string, [ballTrackerCommandCallback] writes
    no member other than [on_tracking_], and it publishes at most one
    message, which is never a scan request. *)
Theorem command_only_switches_tracking (data : string) s :
  let '(s', out) := ballTrackerCommandCallback data s in
  s' = set_on_tracking_ (on_tracking_ s') s /\
  (List.length out <= 1)%nat /\
  filter is_scan out = [].
Proof.
  unfold ballTrackerCommandCallback, startTracking, stopTracking,
    publishHeadJoint.
  destruct (String.eqb data "start"); [cbn; auto|].
  destruct (String.eqb data "stop").
  { cbn [fst snd on_tracking_ set_on_tracking_].
    destruct (_ && _); cbn; auto. }
  destruct (String.eqb data "toggle_start").
  - destruct (on_tracking_ s) eqn:Hon; cbn [negb].
    + cbn [fst snd on_tracking_ set_on_tracking_].
      destruct (_ && _); cbn; auto.
    + cbn; auto.
  - cbn [List.length filter fst snd]. rewrite set_on_tracking_same. auto.
Qed.

(** X2.  A command string other than ["start"], ["stop"] and
    ["toggle_start"] changes nothing and publishes nothing. *)
Theorem unknown_command_is_ignored (data : string) s :
  data <> "start"%string -> data <> "stop"%string ->
  data <> "toggle_start"%string ->
  ballTrackerCommandCallback data s = (s, []).
Proof.
  intros H1 H2 H3. unfold ballTrackerCommandCallback.
  apply String.eqb_neq in H1, H2, H3. rewrite H1, H2, H3. reflexivity.
Qed.

(** X3.  ["start"] twice is ["start"] once; ["toggle_start"] twice gives
    back the tracker it started from; and on a tracker that is tracking,
    ["stop"] followed by ["start"] gives back the tracker as well. *)
Theorem commands_compose s :
  fst (ballTrackerCommandCallback "start"
         (fst (ballTrackerCommandCallback "start" s)))
  = fst (ballTrackerCommandCallback "start" s) /\
  fst (ballTrackerCommandCallback "toggle_start"
         (fst (ballTrackerCommandCallback "toggle_start" s))) = s /\
  (if on_tracking_ s then
     fst (ballTrackerCommandCallback "start"
            (fst (ballTrackerCommandCallback "stop" s))) = s
   else True).
Proof.
  destruct s as [u c o p ti b st bp pt].
  split; [reflexivity|]. split.
  - destruct o; reflexivity.
  - destruct o; [reflexivity|exact I].
Qed.

End CommandExtras.

(** ** What is published, and when *)

Section OutputExtras.
Context {D : Type} {ops : DoubleOps D}.
Local Open Scope Z_scope.

Implicit Types (s : BallTracker D) (t : Time.t).

Lemma publishHeadJoint_one (pan tilt : D) :
  one_message (publishHeadJoint pan tilt).
Proof.
  unfold publishHeadJoint, one_message.
  destruct (_ && _)%bool eqn:Hd; [left; reflexivity|].
  right. right. exists (AngleOffset pan tilt). split; [reflexivity|].
  exists pan, tilt. split; [reflexivity|exact Hd].
Qed.

Lemma processTracking_one t s : one_message (snd (processTracking t s)).
Proof.
  destruct (fst (fst (processTracking t s))) eqn:Hst.
  - unfold processTracking in *.
    destruct (on_tracking_ s); cbn [negb] in *; [|left; reflexivity].
    pose proof (check_ball_position_scan s) as Hscan.
    destruct (check_ball_position s) as [[st s1] scan]; cbn [fst snd] in *.
    destruct st; try (destruct (raw_error _ s1) as [[xe ye] bs]);
      try discriminate Hst.
    cbn [snd]. rewrite Hscan.
    destruct (_ && _)%bool; [right; left|left]; reflexivity.
  - destruct (processTracking_tracking t s) as [Hout _];
      [rewrite Hst; discriminate|].
    rewrite Hout. apply publishHeadJoint_one.
  - destruct (processTracking_tracking t s) as [Hout _];
      [rewrite Hst; discriminate|].
    rewrite Hout. apply publishHeadJoint_one.
Qed.

Lemma step_one (e : Event) s :
  one_message (snd (step e s)) /\
  (can_publish e = false -> snd (step e s) = []).
Proof.
  destruct e as [cs|data|b|t]; [| | |rewrite step_tick];
    cbn [step snd can_publish].
  - split; [left|]; reflexivity.
  - split; [|discriminate].
    unfold ballTrackerCommandCallback, startTracking, stopTracking.
    destruct (String.eqb data "start"); [left; reflexivity|].
    destruct (String.eqb data "stop"); [apply publishHeadJoint_one|].
    destruct (String.eqb data "toggle_start"); [|left; reflexivity].
    destruct (negb (on_tracking_ s));
      [left; reflexivity|apply publishHeadJoint_one].
  - split; [left|]; reflexivity.
  - split; [|discriminate]. apply processTracking_one.
Qed.

(** X4.  Everything the tracker ever publishes is a scan request or a
    joint state for ["head_pan"] and ["head_tilt"] with one of its two
    angles not below one degree: no joint state inside the deadband is
    published, by a control period or by a command. *)
Theorem nothing_below_deadband_is_published (es : list Event) s :
  Forall (fun m => m = ScanRequest \/ above_deadband m) (snd (run es s)).
Proof.
  revert s. induction es as [|e es IH]; intros s; [constructor|].
  rewrite run_cons. cbn [snd]. apply Forall_app. split; [|apply IH].
  destruct (step_one e s) as [[H|[H|(m & H & Hm)]] _]; rewrite H.
  - constructor.
  - constructor; [left; reflexivity|constructor].
  - constructor; [right; exact Hm|constructor].
Qed.

(** X5.  An event publishes at most one message, and only control periods
    and commands publish: a detector message and [setUsingHeadScan]
    publish nothing, so a run publishes at most as many messages as it
    has control periods and commands. *)
Theorem at_most_one_message_per_event (es : list Event) s :
  (List.length (snd (run es s)) <= List.length (filter can_publish es))%nat.
Proof.
  revert s. induction es as [|e es IH]; intros s; [apply le_n|].
  rewrite run_cons. cbn [snd filter]. rewrite length_app.
  specialize (IH (fst (step e s))).
  destruct (step_one e s) as [Hone Hmute].
  destruct (can_publish e).
  - cbn [List.length].
    destruct Hone as [H|[H|(m & H & _)]]; rewrite H; cbn [List.length]; lia.
  - rewrite Hmute by reflexivity. cbn [List.length]. lia.
Qed.

End OutputExtras.

(** ** The status and the members a period leaves alone *)

Section StatusExtras.
Context {D : Type} {ops : DoubleOps D}.
Local Open Scope Z_scope.

Implicit Types (s : BallTracker D) (t : Time.t).

(** X6.  The status [processTracking] returns: [NotFound] while tracking
    is off; [Found] when a circle of positive size is held; otherwise
    [Waiting] if the incremented counter is below [WAITING_THRESHOLD] and
    the recorded status was [Found] or [Waiting], and [NotFound] if not.
    While tracking is on the returned status is the one recorded in
    [tracking_status_]; while it is off, [tracking_status_] keeps its
    value. *)
Theorem returned_status_is_recorded t s :
  let '(st, s', out) := processTracking t s in
  st = (if on_tracking_ s then
          if (Point.z (ball_position_ s) <=? dint 0)%dbl then
            if count_not_found_ s + 1 <? WAITING_THRESHOLD then
              match tracking_status_ s with
              | NotFound => NotFound
              | _ => Waiting
              end
            else NotFound
          else Found
        else NotFound) /\
  tracking_status_ s' = (if on_tracking_ s then st else tracking_status_ s).
Proof.
  destruct (on_tracking_ s) eqn:Hon.
  - destruct (processTracking_status t s Hon) as [Hret Hrec].
    rewrite check_ball_position_status in Hret, Hrec.
    destruct (processTracking t s) as [[st s'] out]; cbn [fst snd] in *.
    split; [exact Hret|]. rewrite Hrec. symmetry. exact Hret.
  - rewrite (processTracking_inactive t s Hon). split; reflexivity.
Qed.

(** X7.  A period that runs while tracking is on and returns [NotFound]
    writes the counter and [tracking_status_] and nothing else: the held
    circle, [current_ball_pan_], [current_ball_tilt_],
    [current_ball_bottom_] and [prev_time_] stay as they were, so the clock
    of such a period is not remembered; and it publishes no joint
    state. *)
Theorem lost_period_keeps_memory t s :
  on_tracking_ s = true ->
  fst (fst (processTracking t s)) = NotFound ->
  let s' := snd (fst (processTracking t s)) in
  s' = set_tracking_status_ NotFound
         (set_count_not_found_ (count_not_found_ s') s) /\
  snd (processTracking t s) = filter is_scan (snd (processTracking t s)).
Proof.
  intros Hon. unfold processTracking. rewrite Hon. cbn [negb].
  pose proof (check_ball_position_frame s) as Hf.
  pose proof (check_ball_position_scan s) as Hscan.
  destruct (check_ball_position s) as [[st s1] scan]; cbn [fst snd] in *.
  destruct st; try (destruct (raw_error _ s1) as [[xe ye] bs]);
    cbn [fst snd]; try discriminate.
  intros _. cbv zeta. split.
  - rewrite Hf at 1. reflexivity.
  - rewrite Hscan. destruct (_ && _)%bool; reflexivity.
Qed.

(** While tracking is off, an event that is not a command publishes
    nothing and leaves the mode, the status, the clock and the remembered
    errors alone. *)
Lemma step_while_off (e : Event) s :
  on_tracking_ s = false -> is_command e = false ->
  snd (step e s) = [] /\
  on_tracking_ (fst (step e s)) = false /\
  tracking_status_ (fst (step e s)) = tracking_status_ s /\
  prev_time_ (fst (step e s)) = prev_time_ s /\
  current_ball_pan_ (fst (step e s)) = current_ball_pan_ s /\
  current_ball_tilt_ (fst (step e s)) = current_ball_tilt_ s /\
  current_ball_bottom_ (fst (step e s)) = current_ball_bottom_ s.
Proof.
  intros Hoff He.
  destruct e as [cs|data|b|t]; [| | |rewrite step_tick]; cbn [step fst snd].
  - repeat split; assumption.
  - discriminate He.
  - repeat split; assumption.
  - rewrite (processTracking_inactive t s Hoff). cbn [fst snd].
    repeat split; assumption.
Qed.

(** X8.  From a tracker that is not tracking, events without a command
    (detector messages, control periods, [setUsingHeadScan]) publish
    nothing, and leave tracking off and [tracking_status_], [prev_time_],
    [current_ball_pan_], [current_ball_tilt_] and [current_ball_bottom_]
    as they were. *)
Theorem silent_until_a_command (es : list Event) s :
  on_tracking_ s = false ->
  forallb (fun e => negb (is_command e)) es = true ->
  let '(s', out) := run es s in
  out = [] /\ on_tracking_ s' = false /\
  tracking_status_ s' = tracking_status_ s /\
  prev_time_ s' = prev_time_ s /\
  current_ball_pan_ s' = current_ball_pan_ s /\
  current_ball_tilt_ s' = current_ball_tilt_ s /\
  current_ball_bottom_ s' = current_ball_bottom_ s.
Proof.
  revert s. induction es as [|e es IH]; intros s Hoff Hall.
  - cbn [run]. repeat split; assumption.
  - cbn [forallb] in Hall. apply andb_prop in Hall as [He Hes].
    apply negb_true_iff in He.
    destruct (step_while_off e s Hoff He)
      as (Hout & Hoff' & Hst & Hpt & Hp & Ht & Hb).
    specialize (IH (fst (step e s)) Hoff' Hes).
    rewrite run_cons.
    destruct (run es (fst (step e s))) as [s' out]; cbn [fst snd].
    destruct IH as (Ho & Hf & H1 & H2 & H3 & H4 & H5).
    rewrite Hout, Ho. repeat split; congruence.
Qed.

End StatusExtras.

(** ** Losing the ball *)

Section LossExtras.
Context {D : Type} {ops : DoubleOps D}.
Local Open Scope Z_scope.

Implicit Types (s : BallTracker D) (t : Time.t).

(** The circle kept is the held one or one of the reported ones. *)
Lemma largest_circle_in (held : Point.t D) circles :
  largest_circle held circles = held \/ In (largest_circle held circles) circles.
Proof.
  unfold largest_circle. revert held.
  induction circles as [|c cs IH]; intros held; [left; reflexivity|].
  cbn [fold_left]. destruct (IH (keep_larger held c)) as [H|H].
  - rewrite H. unfold keep_larger.
    destruct (_ <=? _)%dbl; [left; reflexivity|right; left; reflexivity].
  - right. right. exact H.
Qed.

(** Without a positive size among the held and the reported circles, no
    positive size is held afterwards. *)
Lemma largest_circle_stays_empty (held : Point.t D) circles :
  (Point.z held <=? dint 0)%dbl = true ->
  forallb (fun c => (Point.z c <=? dint 0)%dbl) circles = true ->
  (Point.z (largest_circle held circles) <=? dint 0)%dbl = true.
Proof.
  intros Hh Hall. destruct (largest_circle_in held circles) as [H|H].
  - rewrite H. exact Hh.
  - rewrite forallb_forall in Hall. apply Hall. exact H.
Qed.

(** X9.  [Waiting] is only entered from [Found] or [Waiting]: once the
    recorded status is [NotFound] and no circle of positive size is held,
    it stays [NotFound] through any control periods and any detector
    messages without a positive size, also when the counter passes
    [NOT_FOUND_THRESHOLD] and restarts. *)
Theorem not_found_until_detection (es : list Event) s :
  tracking_status_ s = NotFound ->
  (Point.z (ball_position_ s) <=? dint 0)%dbl = true ->
  forallb no_detection es = true ->
  tracking_status_ (fst (run es s)) = NotFound.
Proof.
  intros Hst Hz Hall.
  assert (Hinv : on_tracking_ s = false \/
                 (Point.z (ball_position_ s) <=? dint 0)%dbl = true)
    by (right; exact Hz).
  clear Hz. revert s Hst Hinv.
  induction es as [|e es IH]; intros s Hst Hinv; [exact Hst|].
  cbn [forallb] in Hall. apply andb_prop in Hall as [He Hes].
  rewrite run_cons; cbn [fst]. apply (IH Hes).
  - destruct e as [cs|data|b|t]; try discriminate He;
      [|rewrite step_tick]; cbn [step fst snd].
    + exact Hst.
    + destruct (on_tracking_ s) eqn:Hon.
      * destruct Hinv as [Hoff|Hz]; [discriminate|].
        rewrite (processTracking_lost t s Hon Hz) by (right; exact Hst).
        reflexivity.
      * rewrite (processTracking_inactive t s Hon). exact Hst.
  - destruct e as [cs|data|b|t]; try discriminate He;
      [|rewrite step_tick]; cbn [step fst snd].
    + destruct Hinv as [Hoff|Hz]; [left; exact Hoff|right].
      cbn [ballPositionCallback ball_position_ set_ball_position_].
      apply largest_circle_stays_empty; assumption.
    + destruct (on_tracking_ s) eqn:Hon.
      * destruct Hinv as [Hoff|Hz]; [discriminate|]. right.
        rewrite (processTracking_lost t s Hon Hz) by (right; exact Hst).
        exact Hz.
      * left. rewrite (processTracking_inactive t s Hon). exact Hon.
Qed.

(** After [WAITING_THRESHOLD] periods without detection the status is
    [NotFound]. *)
Lemma long_miss_run (Hzero : ((dint 0 : D) <=? dint 0)%dbl = true)
      (es : list Event) :
  forall s,
    on_tracking_ s = true ->
    Point.z (ball_position_ s) = dint 0 ->
    0 <= count_not_found_ s ->
    tracking_status_ s = NotFound \/
    (1 <= ticks_in es /\ WAITING_THRESHOLD <= count_not_found_ s + ticks_in es) ->
    forallb no_detection es = true ->
    tracking_status_ (fst (run es s)) = NotFound.
Proof.
  induction es as [|e es IH]; intros s Hon Hz Hpos Hcase Hall.
  - destruct Hcase as [H|[H _]]; [exact H|cbn in H; lia].
  - cbn [forallb] in Hall. apply andb_prop in Hall as [He Hes].
    rewrite run_cons; cbn [fst].
    pose proof (ticks_in_nonneg es) as Hnn.
    destruct e as [cs|data|b|t]; try discriminate He.
    + cbn [step fst ticks_in no_detection] in *.
      assert (Hs : ballPositionCallback cs s
                   = set_ball_position_ (ball_position_ s) s).
      { unfold ballPositionCallback.
        rewrite (largest_circle_no_detection _ _ Hz He). reflexivity. }
      rewrite Hs.
      exact (IH (set_ball_position_ (ball_position_ s) s)
               Hon Hz Hpos Hcase Hes).
    + rewrite step_tick; cbn [fst ticks_in] in *.
      assert (Hz' : (Point.z (ball_position_ s) <=? dint 0)%dbl = true)
        by (rewrite Hz; exact Hzero).
      destruct (Z_lt_ge_dec (count_not_found_ s + 1) WAITING_THRESHOLD)
        as [Hlt|Hge];
        [destruct (tracking_status_ s) eqn:Hst|].
      2,3: (rewrite (processTracking_waiting t s Hon Hz' Hlt)
             by (rewrite Hst; discriminate);
            cbn [fst snd]; apply IH;
            [exact Hon|reflexivity|cbn; lia|
             right; destruct Hcase as [H|H]; [discriminate H|];
             cbn [tracked count_not_found_ set_tracking_status_ set_ball_z
                  set_ball_position_ set_current_ball set_prev_time_
                  set_count_not_found_]; lia|exact Hes]).
      * rewrite (processTracking_lost t s Hon Hz') by (right; exact Hst).
        cbn [fst snd]. apply IH;
          [exact Hon|exact Hz|cbn; apply next_count_in_range; exact Hpos|
           left; reflexivity|exact Hes].
      * rewrite (processTracking_lost t s Hon Hz') by (left; lia).
        cbn [fst snd]. apply IH;
          [exact Hon|exact Hz|cbn; apply next_count_in_range; exact Hpos|
           left; reflexivity|exact Hes].
Qed.

(** X10.  In an arithmetic where [0 <= 0] holds: if a period that runs
    while tracking is on leaves the status [Found], and it is followed by
    events without detection that contain at least [WAITING_THRESHOLD]
    control periods, then the status after them is [NotFound]: coasting
    lasts [WAITING_THRESHOLD - 1] periods and no more. *)
Theorem found_then_lost (Hzero : ((dint 0 : D) <=? dint 0)%dbl = true)
        t0 s0 (es : list Event) :
  on_tracking_ s0 = true ->
  tracking_status_ (snd (fst (processTracking t0 s0))) = Found ->
  forallb no_detection es = true ->
  WAITING_THRESHOLD <= ticks_in es ->
  tracking_status_ (fst (run es (snd (fst (processTracking t0 s0)))))
  = NotFound.
Proof.
  intros Hon Hfound Hall Hk.
  destruct (processTracking_status t0 s0 Hon) as [Hret Hrec].
  assert (Hst : fst (fst (processTracking t0 s0)) = Found) by congruence.
  assert (Hc0 : count_not_found_ (snd (fst (processTracking t0 s0))) = 0).
  { rewrite processTracking_count. unfold next_count. rewrite Hon.
    cbn [negb]. rewrite Hst, check_ball_position_status in Hret.
    destruct (Point.z (ball_position_ s0) <=? dint 0)%dbl; [|reflexivity].
    destruct (count_not_found_ s0 + 1 <? WAITING_THRESHOLD);
      [destruct (tracking_status_ s0)|]; discriminate. }
  apply (long_miss_run Hzero); try assumption.
  - rewrite processTracking_on_tracking. exact Hon.
  - apply processTracking_clears_z. rewrite Hst. discriminate.
  - rewrite Hc0. lia.
  - right. rewrite Hc0. unfold WAITING_THRESHOLD in *. lia.
Qed.

End LossExtras.

(** ** Scan requests over a long loss *)

Section ScanExtras.
Context {D : Type} {ops : DoubleOps D}.
Local Open Scope Z_scope.

Implicit Types (s : BallTracker D) (t : Time.t).

Lemma run_app (es1 es2 : list Event) s :
  run (es1 ++ es2) s =
  (fst (run es2 (fst (run es1 s))),
   snd (run es1 s) ++ snd (run es2 (fst (run es1 s)))).
Proof.
  revert s. induction es1 as [|e es1 IH]; intros s.
  - cbn [app run fst snd]. destruct (run es2 s); reflexivity.
  - cbn [app]. rewrite !run_cons, IH. cbn [fst snd].
    rewrite app_assoc. reflexivity.
Qed.

Lemma ticks_in_map_Tick (ts : list Time.t) :
  ticks_in (map (@Tick D) ts) = Z.of_nat (List.length ts).
Proof.
  induction ts as [|t ts IH]; [reflexivity|].
  cbn [map ticks_in List.length]. rewrite IH. lia.
Qed.

(** Control periods do not write [use_head_scan_]. *)
Lemma processTracking_use_head_scan t s :
  use_head_scan_ (snd (fst (processTracking t s))) = use_head_scan_ s.
Proof.
  unfold processTracking.
  destruct (on_tracking_ s); cbn [negb]; [|reflexivity].
  pose proof (check_ball_position_frame s) as Hf.
  destruct (check_ball_position s) as [[st s1] scan]; cbn [fst snd] in *.
  rewrite Hf.
  destruct st; try reflexivity;
    destruct (raw_error _ _) as [[xe ye] bs]; reflexivity.
Qed.

(** Periods without detection, at any clock values, count up. *)
Lemma misses_at_any_time (Hzero : ((dint 0 : D) <=? dint 0)%dbl = true)
      (ts : list Time.t) :
  forall s,
    on_tracking_ s = true ->
    Point.z (ball_position_ s) = dint 0 ->
    count_not_found_ s + Z.of_nat (List.length ts) <= NOT_FOUND_THRESHOLD ->
    let s' := fst (run (map Tick ts) s) in
    on_tracking_ s' = true /\
    Point.z (ball_position_ s') = dint 0 /\
    use_head_scan_ s' = use_head_scan_ s /\
    count_not_found_ s' = count_not_found_ s + Z.of_nat (List.length ts).
Proof.
  induction ts as [|t ts IH]; intros s Hon Hz Hle; cbv zeta.
  - cbn [map run fst List.length]. repeat split; try assumption. lia.
  - cbn [map List.length] in *. rewrite run_cons, step_tick. cbn [fst snd].
    assert (Hc : count_not_found_ (snd (fst (processTracking t s)))
                 = count_not_found_ s + 1).
    { rewrite processTracking_count. unfold next_count.
      rewrite Hon, Hz, Hzero. cbn [negb].
      unfold NOT_FOUND_THRESHOLD in *.
      destruct (50 <? count_not_found_ s + 1) eqn:Hn;
        [apply Z.ltb_lt in Hn; lia|reflexivity]. }
    destruct (IH (snd (fst (processTracking t s))))
      as (Hon' & Hz' & Hu' & Hc').
    + rewrite processTracking_on_tracking. exact Hon.
    + apply processTracking_keeps_zero. exact Hz.
    + rewrite Hc. lia.
    + repeat split; try assumption.
      * rewrite Hu'. apply processTracking_use_head_scan.
      * rewrite Hc', Hc. lia.
Qed.

(** One round: [NOT_FOUND_THRESHOLD + 1] periods without detection, from
    a counter at 0. *)
Lemma scan_round (Hzero : ((dint 0 : D) <=? dint 0)%dbl = true)
      (ts : list Time.t) s :
  on_tracking_ s = true ->
  Point.z (ball_position_ s) = dint 0 ->
  count_not_found_ s = 0 ->
  List.length ts = 51%nat ->
  let r := run (map Tick ts) s in
  filter is_scan (snd r) = (if use_head_scan_ s then [ScanRequest] else []) /\
  on_tracking_ (fst r) = true /\
  Point.z (ball_position_ (fst r)) = dint 0 /\
  count_not_found_ (fst r) = 0 /\
  use_head_scan_ (fst r) = use_head_scan_ s.
Proof.
  intros Hon Hz Hc Hlen. cbv zeta.
  destruct (exists_last (l := ts)) as (ts50 & t51 & Hts);
    [intros ->; discriminate Hlen|].
  subst ts. rewrite length_app in Hlen. cbn [List.length] in Hlen.
  assert (Hlen50 : List.length ts50 = 50%nat) by lia.
  rewrite map_app, run_app. cbn [fst snd map].
  destruct (misses_at_any_time Hzero ts50 s Hon Hz)
    as (Hon' & Hz' & Hu' & Hc');
    [unfold NOT_FOUND_THRESHOLD; lia|].
  rewrite Hc, Hlen50 in Hc'. cbn in Hc'.
  assert (Hquiet : filter is_scan (snd (run (map Tick ts50) s)) = []).
  { apply run_without_scan; rewrite ?ticks_in_map_Tick;
      unfold NOT_FOUND_THRESHOLD; lia. }
  set (s50 := fst (run (map Tick ts50) s)) in *.
  rewrite run_cons, step_tick. cbn [run fst snd].
  rewrite filter_app, Hquiet, app_nil_r. cbn [app].
  assert (Hz50 : (Point.z (ball_position_ s50) <=? dint 0)%dbl = true)
    by (rewrite Hz'; exact Hzero).
  rewrite (processTracking_lost t51 s50 Hon' Hz50)
    by (left; unfold WAITING_THRESHOLD; lia).
  cbn [fst snd]. rewrite Hc', Hu'.
  unfold next_count. rewrite Hon', Hz50, Hc'.
  cbn [negb set_tracking_status_ set_count_not_found_ on_tracking_
       ball_position_ count_not_found_ use_head_scan_].
  change (NOT_FOUND_THRESHOLD <? 50 + 1) with true. cbn [andb].
  split; [destruct (use_head_scan_ s); reflexivity|].
  repeat split; assumption.
Qed.

(** X11.  In an arithmetic where [0 <= 0] holds, with [use_head_scan_]
    set: from a tracker that is tracking with no circle held and the
    counter at 0, [51 * n] control periods without detection publish
    exactly [n] scan requests, one per [NOT_FOUND_THRESHOLD + 1] periods,
    and leave the counter at 0. *)
Theorem scan_every_51_periods (Hzero : ((dint 0 : D) <=? dint 0)%dbl = true)
        (n : nat) (ts : list Time.t) s :
  on_tracking_ s = true ->
  Point.z (ball_position_ s) = dint 0 ->
  count_not_found_ s = 0 ->
  use_head_scan_ s = true ->
  List.length ts = (51 * n)%nat ->
  filter is_scan (snd (run (map Tick ts) s)) = repeat ScanRequest n /\
  count_not_found_ (fst (run (map Tick ts) s)) = 0.
Proof.
  revert ts s. induction n as [|n IH]; intros ts s Hon Hz Hc Hu Hlen.
  - destruct ts; [split; [reflexivity|exact Hc]|discriminate Hlen].
  - rewrite <- (firstn_skipn 51 ts), map_app, run_app. cbn [fst snd].
    assert (Hl1 : List.length (firstn 51 ts) = 51%nat)
      by (rewrite length_firstn; lia).
    assert (Hl2 : List.length (skipn 51 ts) = (51 * n)%nat)
      by (rewrite length_skipn; lia).
    destruct (scan_round Hzero (firstn 51 ts) s Hon Hz Hc Hl1)
      as (Hs1 & Hon1 & Hz1 & Hc1 & Hu1).
    rewrite Hu in Hs1, Hu1.
    destruct (IH (skipn 51 ts) _ Hon1 Hz1 Hc1 Hu1 Hl2) as [Hs2 Hc2].
    split; [|exact Hc2].
    rewrite filter_app, Hs1, Hs2. reflexivity.
Qed.

End ScanExtras.

Section FlagExtras.
Context {D : Type} {ops : DoubleOps D}.
Local Open Scope Z_scope.

Implicit Types (s : BallTracker D) (t : Time.t).

(** One event on two trackers that differ in [use_head_scan_] only. *)
Lemma step_scan_flag (e : Event) s (b : bool) :
  fst (step e (set_use_head_scan_ b s)) =
    set_use_head_scan_ (use_head_scan_ (fst (step e (set_use_head_scan_ b s))))
      (fst (step e s)) /\
  filter (fun m => negb (is_scan m)) (snd (step e (set_use_head_scan_ b s))) =
    filter (fun m => negb (is_scan m)) (snd (step e s)).
Proof.
  destruct e as [cs|data|b'|t]; [| | |rewrite !step_tick];
    cbn [step fst snd].
  - split; reflexivity.
  - unfold ballTrackerCommandCallback, startTracking, stopTracking.
    destruct (String.eqb data "start"); [split; reflexivity|].
    destruct (String.eqb data "stop"); [split; reflexivity|].
    destruct (String.eqb data "toggle_start"); [|split; reflexivity].
    cbn [on_tracking_ set_use_head_scan_].
    destruct (negb (on_tracking_ s)); split; reflexivity.
  - split; reflexivity.
  - unfold processTracking, check_ball_position, scanBall.
    cbn [on_tracking_ ball_position_ count_not_found_ tracking_status_
         use_head_scan_ set_use_head_scan_ set_count_not_found_].
    destruct (on_tracking_ s); cbn [negb]; [|split; reflexivity].
    destruct (Point.z (ball_position_ s) <=? dint 0)%dbl;
      [|split; reflexivity].
    destruct (count_not_found_ s + 1 <? WAITING_THRESHOLD).
    + destruct (tracking_status_ s); split; reflexivity.
    + destruct (NOT_FOUND_THRESHOLD <? count_not_found_ s + 1);
        [|split; reflexivity].
      destruct b, (use_head_scan_ s); split; reflexivity.
Qed.

(** X12.  [use_head_scan_] decides whether scan requests are published
    and nothing else: run the same events from two trackers that differ
    in this flag only, and the trackers reached differ in this flag at
    most, and the joint states published are the same. *)
Theorem scan_flag_only_gates_scan (es : list Event) s (b : bool) :
  let '(s1, out1) := run es s in
  let '(s2, out2) := run es (set_use_head_scan_ b s) in
  s2 = set_use_head_scan_ (use_head_scan_ s2) s1 /\
  filter (fun m => negb (is_scan m)) out2 =
  filter (fun m => negb (is_scan m)) out1.
Proof.
  revert s b. induction es as [|e es IH]; intros s b.
  - cbn [run]. split; reflexivity.
  - rewrite !run_cons.
    destruct (step_scan_flag e s b) as [Hs Hout].
    specialize (IH (fst (step e s))
                  (use_head_scan_ (fst (step e (set_use_head_scan_ b s))))).
    rewrite <- Hs in IH.
    destruct (run es (fst (step e s))) as [s1 out1].
    destruct (run es (fst (step e (set_use_head_scan_ b s)))) as [s2 out2].
    cbn [fst snd]. destruct IH as [IHs IHout].
    split; [exact IHs|]. rewrite !filter_app, Hout, IHout. reflexivity.
Qed.

End FlagExtras.

(** ** The detector messages over the reals *)

Section CircleExtras.
Local Open Scope R_scope.

Lemma keep_larger_size (held c : Point.t R) :
  Point.z (keep_larger held c) = Rmax (Point.z held) (Point.z c).
Proof.
  rewrite keep_larger_real. unfold Rmax.
  destruct (Rlt_dec (Point.z held) (Point.z c)) as [Hlt|n];
    destruct (Rle_dec (Point.z held) (Point.z c)) as [Hle|Hnle];
    cbv iota; try reflexivity.
  - apply Rnot_le_lt in Hnle. lra.
  - apply Rnot_lt_le in n. apply Rle_antisym; assumption.
Qed.

Lemma largest_circle_size (circles : list (Point.t R)) :
  forall held,
    Point.z (largest_circle held circles) =
    fold_left Rmax (map (@Point.z R) circles) (Point.z held).
Proof.
  unfold largest_circle.
  induction circles as [|c cs IH]; intros held; [reflexivity|].
  cbn [fold_left map]. rewrite IH, keep_larger_size. reflexivity.
Qed.

Lemma fold_left_Rmax_perm (l l' : list R) :
  Permutation l l' -> forall a, fold_left Rmax l a = fold_left Rmax l' a.
Proof.
  induction 1 as [|x l l' _ IH|x y l|l l' l'' _ IH1 _ IH2]; intros a.
  - reflexivity.
  - cbn [fold_left]. apply IH.
  - cbn [fold_left]. f_equal.
    rewrite <- !Rmax_assoc. f_equal. apply Rmax_comm.
  - rewrite IH1. apply IH2.
Qed.

Lemma fold_left_Rmax_ge (l : list R) :
  forall a, a <= fold_left Rmax l a.
Proof.
  induction l as [|x l IH]; intros a; [apply Rle_refl|].
  cbn [fold_left]. apply Rle_trans with (Rmax a x); [apply Rmax_l|apply IH].
Qed.

(** X13.  Over the reals: the size held after [ballPositionCallback] is
    the maximum of the size held before and the reported sizes, so it
    never goes down; and it does not depend on the order in which the
    circles are listed. *)
Theorem held_size_is_the_maximum (s : BallTracker R)
        (circles circles' : list (Point.t R)) :
  Permutation circles circles' ->
  let size cs := Point.z (ball_position_ (ballPositionCallback cs s)) in
  size circles =
    fold_left Rmax (map (@Point.z R) circles) (Point.z (ball_position_ s)) /\
  Point.z (ball_position_ s) <= size circles /\
  size circles' = size circles.
Proof.
  intros Hperm. cbv zeta.
  cbn [ballPositionCallback ball_position_ set_ball_position_].
  rewrite !largest_circle_size. split; [reflexivity|]. split.
  - apply fold_left_Rmax_ge.
  - symmetry. apply fold_left_Rmax_perm.
    apply Permutation_map. exact Hperm.
Qed.

(** Circles that are not larger than the held one leave it in place. *)
Lemma largest_circle_keeps (held : Point.t R) circles :
  Forall (fun c => Point.z c <= Point.z held) circles ->
  largest_circle held circles = held.
Proof.
  unfold largest_circle. induction 1 as [|c cs Hc _ IH]; [reflexivity|].
  cbn [fold_left]. rewrite keep_larger_real.
  destruct (Rlt_dec _ _); [lra|exact IH].
Qed.

(** X14.  Over the reals: a detector message delivered twice has the
    effect of the message delivered once. *)
Theorem repeated_message_changes_nothing (s : BallTracker R)
        (circles : list (Point.t R)) :
  ballPositionCallback circles (ballPositionCallback circles s) =
  ballPositionCallback circles s.
Proof.
  unfold ballPositionCallback at 1 3.
  cbn [ballPositionCallback ball_position_ set_ball_position_ use_head_scan_
       count_not_found_ on_tracking_ current_ball_pan_ current_ball_tilt_
       current_ball_bottom_ tracking_status_ prev_time_].
  rewrite largest_circle_keeps; [reflexivity|].
  destruct (largest_circle_split (ball_position_ s) circles)
    as (before & after & Heq & Hb & Ha).
  set (r := largest_circle (ball_position_ s) circles) in *.
  assert (Hall : Forall (fun c => Point.z c <= Point.z r)
                   (ball_position_ s :: circles)).
  { rewrite Heq. apply Forall_app. split.
    - eapply Forall_impl; [|exact Hb]. cbn beta. intros a Hlt. lra.
    - constructor; [lra|exact Ha]. }
  inversion Hall. assumption.
Qed.

End CircleExtras.

(** ** The raw errors over the reals *)

Section AngleExtras.
Local Open Scope R_scope.

Lemma real_fov_in_range :
  0 < @FOV_WIDTH R _ < PI / 2 /\ 0 < @FOV_HEIGHT R _ < PI / 2.
Proof.
  pose proof PI2_1. rewrite real_FOV_WIDTH, real_FOV_HEIGHT.
  repeat split; lra.
Qed.

Lemma fov_error_decreasing (fov v1 v2 : R) :
  0 < fov < PI / 2 -> v1 < v2 -> fov_error v2 fov < fov_error v1 fov.
Proof.
  intros [H0 H1] Hlt. rewrite !real_fov_error.
  apply Ropp_lt_contravar, atan_increasing.
  apply Rmult_lt_compat_r; [apply tan_gt_0; assumption|exact Hlt].
Qed.

Lemma fov_error_at_edges (fov : R) :
  0 < fov < PI / 2 -> fov_error 1 fov = - fov /\ fov_error (-1) fov = fov.
Proof.
  intros [H0 H1]. rewrite !real_fov_error.
  replace (-1 * tan fov) with (- tan fov) by lra.
  rewrite Rmult_1_l, atan_opp, atan_tan by lra. lra.
Qed.

Lemma fov_error_within (fov v : R) :
  0 < fov < PI / 2 -> -1 <= v <= 1 -> Rabs (fov_error v fov) <= fov.
Proof.
  intros Hfov [Hl Hu]. destruct (fov_error_at_edges fov Hfov) as [H1 Hm1].
  assert (Hup : fov_error v fov <= fov).
  { destruct Hl as [Hl|Hl].
    - pose proof (fov_error_decreasing fov (-1) v Hfov Hl). lra.
    - rewrite <- Hl. lra. }
  assert (Hlo : - fov <= fov_error v fov).
  { destruct Hu as [Hu|Hu].
    - pose proof (fov_error_decreasing fov v 1 Hfov Hu). lra.
    - rewrite Hu. lra. }
  apply Rabs_le. split; assumption.
Qed.

(** X15.  Over the reals: on a period that runs while tracking is on with
    a held circle of positive size whose coordinates lie in [[-1, 1]], the
    raw errors remembered are at most [FOV_WIDTH] and [FOV_HEIGHT] in
    magnitude. *)
Theorem raw_errors_within_field_of_view (t : Time.t) (s : BallTracker R) :
  on_tracking_ s = true ->
  0 < Point.z (ball_position_ s) ->
  -1 <= Point.x (ball_position_ s) <= 1 ->
  -1 <= Point.y (ball_position_ s) <= 1 ->
  let s' := snd (fst (processTracking t s)) in
  Rabs (current_ball_pan_ s') <= FOV_WIDTH /\
  Rabs (current_ball_tilt_ s') <= FOV_HEIGHT.
Proof.
  intros Hon Hz Hx Hy.
  rewrite (processTracking_found t s Hon) by (apply Rleb_false; exact Hz).
  destruct real_fov_in_range as [Hw Hh].
  cbn. split; apply fov_error_within; assumption.
Qed.

(** X16.  Over the reals: the raw pan error of such a period has the
    sign opposite to the [x] of the circle (a circle in the right half of
    the image gives a negative offset, one in the left half a positive
    one, one in the middle none), and likewise the raw tilt error and
    [y]. *)
Theorem raw_errors_point_to_the_circle (t : Time.t) (s : BallTracker R) :
  on_tracking_ s = true ->
  0 < Point.z (ball_position_ s) ->
  let s' := snd (fst (processTracking t s)) in
  let x := Point.x (ball_position_ s) in
  let y := Point.y (ball_position_ s) in
  (0 < x -> current_ball_pan_ s' < 0) /\
  (x < 0 -> 0 < current_ball_pan_ s') /\
  (x = 0 -> current_ball_pan_ s' = 0) /\
  (0 < y -> current_ball_tilt_ s' < 0) /\
  (y < 0 -> 0 < current_ball_tilt_ s') /\
  (y = 0 -> current_ball_tilt_ s' = 0).
Proof.
  intros Hon Hz.
  rewrite (processTracking_found t s Hon) by (apply Rleb_false; exact Hz).
  destruct real_fov_in_range as [Hw Hh].
  cbn [fst snd tracked raw_error current_ball_pan_ current_ball_tilt_
       set_tracking_status_ set_ball_z set_ball_position_ set_current_ball
       set_prev_time_ set_count_not_found_ ball_position_].
  cbv zeta.
  repeat split; intros H;
    try (rewrite H; apply fov_error_centre);
    match goal with
    | |- fov_error ?v ?f < 0 =>
      rewrite <- (fov_error_centre f); apply fov_error_decreasing; assumption
    | |- 0 < fov_error ?v ?f =>
      rewrite <- (fov_error_centre f) at 1;
      apply fov_error_decreasing; assumption
    end.
Qed.

(** X17.  Over the reals: the [delta_time] of a period is the time
    between the two clock values in nanoseconds, divided by [10^9]; it is
    positive exactly when the clock has advanced since the last period
    that returned [Waiting] or [Found]. *)
Theorem delta_time_is_elapsed_time (a b : Time.t) :
  @delta_time R _ (Time.sub a b)
  = IZR (Time.toNSec a - Time.toNSec b) / 1000000000 /\
  (0 < @delta_time R _ (Time.sub a b) <->
   (Time.toNSec b < Time.toNSec a)%Z).
Proof.
  assert (Heq : @delta_time R _ (Time.sub a b)
                = IZR (Time.toNSec a - Time.toNSec b) / 1000000000).
  { unfold delta_time, Time.sub. cbn [Time.sec Time.nsec].
    set (d := (Time.toNSec a - Time.toNSec b)%Z).
    rewrite (Z.div_mod d 1000000000) at 3 by discriminate.
    rewrite plus_IZR, mult_IZR. cbn. field. }
  split; [exact Heq|]. rewrite Heq. split.
  - intros H. apply Z.lt_0_sub. apply lt_IZR.
    apply (Rmult_lt_compat_r 1000000000) in H; [|lra].
    unfold Rdiv in H. rewrite Rmult_assoc, Rinv_l in H by lra. lra.
  - intros H. apply Z.lt_0_sub in H. apply IZR_lt in H.
    apply Rdiv_lt_0_compat; lra.
Qed.

End AngleExtras.

(** ** Coasting *)

Section CoastingExtras.
Context {D : Type} {ops : DoubleOps D}.
Local Open Scope Z_scope.

Implicit Types (s : BallTracker D) (t : Time.t).

Lemma last_any_default (l : list Time.t) (a d d' : Time.t) :
  last (a :: l) d = last (a :: l) d'.
Proof.
  revert a. induction l as [|b l IH]; intros a; [reflexivity|].
  change (last (b :: l) d = last (b :: l) d'). apply IH.
Qed.

(** X18.  In an arithmetic where [0 <= 0] holds: while the tracker
    coasts (tracking on, no circle held, a recorded status other than
    [NotFound], the counter staying below [WAITING_THRESHOLD]), each
    control period multiplies the remembered pan and tilt errors by 0.7,
    keeps the remembered size, and remembers its clock value. *)
Theorem coasting_decays_the_memory
        (Hzero : ((dint 0 : D) <=? dint 0)%dbl = true)
        (ts : list Time.t) s :
  on_tracking_ s = true ->
  Point.z (ball_position_ s) = dint 0 ->
  tracking_status_ s <> NotFound ->
  count_not_found_ s + Z.of_nat (List.length ts) < WAITING_THRESHOLD ->
  let s' := fst (run (map Tick ts) s) in
  current_ball_pan_ s' =
    Nat.iter (List.length ts) decay (current_ball_pan_ s) /\
  current_ball_tilt_ s' =
    Nat.iter (List.length ts) decay (current_ball_tilt_ s) /\
  current_ball_bottom_ s' = current_ball_bottom_ s /\
  prev_time_ s' = last ts (prev_time_ s).
Proof.
  revert s. induction ts as [|t ts IH]; intros s Hon Hz Hst Hlt; cbv zeta.
  - cbn [map run fst List.length Nat.iter last]. repeat split; reflexivity.
  - cbn [map List.length] in *. rewrite run_cons, step_tick. cbn [fst snd].
    assert (Hz' : (Point.z (ball_position_ s) <=? dint 0)%dbl = true)
      by (rewrite Hz; exact Hzero).
    rewrite (processTracking_waiting t s Hon Hz') by (assumption || lia).
    cbn [fst snd].
    destruct (IH (tracked Waiting (count_not_found_ s + 1) t s))
      as (Hp & Ht & Hb & Hpt);
      [exact Hon|reflexivity|discriminate|cbn; lia|].
    rewrite Hp, Ht, Hb, Hpt.
    cbn [tracked raw_error fst snd current_ball_pan_ current_ball_tilt_
         current_ball_bottom_ prev_time_ set_tracking_status_ set_ball_z
         set_ball_position_ set_current_ball set_prev_time_
         set_count_not_found_].
    fold (decay (current_ball_pan_ s)). fold (decay (current_ball_tilt_ s)).
    rewrite !Nat.iter_succ_r.
    repeat split; try reflexivity.
    destruct ts as [|t0 ts]; [reflexivity|].
    change (last (t :: t0 :: ts) (prev_time_ s))
      with (last (t0 :: ts) (prev_time_ s)).
    apply last_any_default.
Qed.

End CoastingExtras.

(** ** A size that is not a number *)

Section NaNExtras.
Variables libm_atan libm_tan : float -> float.

Lemma leb_nan_l (h : float) : PrimFloat.leb nan h = false.
Proof.
  rewrite FloatAxioms.leb_spec.
  change (Prim2SF nan) with S754_nan. reflexivity.
Qed.

Lemma leb_nan_r (h : float) : PrimFloat.leb h nan = false.
Proof.
  rewrite FloatAxioms.leb_spec.
  change (Prim2SF nan) with S754_nan.
  destruct (Prim2SF h) as [| | |sg m e]; reflexivity.
Qed.

(** X19.  In IEEE binary64: a reported circle whose size is NaN replaces
    the held circle whatever its size, is replaced by whatever circle is
    reported next, and, while it is held with tracking on, makes the
    control period return [Found]. *)
Theorem binary64_nan_size_is_a_detection
        (x y : float) (c : Point.t float) (s : BallTracker float)
        (t : Time.t) :
  @keep_larger float (Binary64 libm_atan libm_tan) c (Point.mk x y nan)
  = Point.mk x y nan /\
  @keep_larger float (Binary64 libm_atan libm_tan) (Point.mk x y nan) c
  = c /\
  fst (fst (@processTracking float (Binary64 libm_atan libm_tan) t
              (set_ball_position_ (Point.mk x y nan)
                 (set_on_tracking_ true s))))
  = Found.
Proof.
  split; [|split].
  - unfold keep_larger. cbn [dle Binary64 Point.z].
    rewrite leb_nan_l. reflexivity.
  - unfold keep_larger. cbn [dle Binary64 Point.z].
    rewrite leb_nan_r. reflexivity.
  - rewrite processTracking_found; [reflexivity|reflexivity|].
    cbn [ball_position_ set_ball_position_ Point.z dle Binary64].
    apply leb_nan_l.
Qed.

End NaNExtras.

(** ** These theorems at work on concrete trackers *)

Section ExtraInstances.
Local Open Scope R_scope.

(** [unknown_command_is_ignored] on the command ["pause"]. *)
Lemma pause_is_ignored :
  ballTrackerCommandCallback "pause" (@init R _) = (@init R _, []).
Proof.
  apply unknown_command_is_ignored; discriminate.
Defined.

(** [lost_period_keeps_memory] on the first period after [start]. *)
Lemma first_period_without_circle :
  let s := startTracking (@init R _) in
  let t := Time.mk 1 0 in
  let s' := snd (fst (processTracking t s)) in
  s' = set_tracking_status_ NotFound
         (set_count_not_found_ (count_not_found_ s') s) /\
  snd (processTracking t s) = filter is_scan (snd (processTracking t s)).
Proof.
  apply lost_period_keeps_memory; [reflexivity|].
  rewrite processTracking_lost;
    [reflexivity|reflexivity|exact real_zero_le_zero|right; reflexivity].
Defined.

(** [silent_until_a_command] on the tracker as constructed. *)
Lemma silent_before_start :
  let '(s', out) :=
    run [Circles [Point.mk 0.5 0 10]; Tick (Time.mk 1 0); UseScan false;
         Tick (Time.mk 2 0)] (@init R _) in
  out = [] /\ on_tracking_ s' = false /\
  tracking_status_ s' = tracking_status_ (@init R _) /\
  prev_time_ s' = prev_time_ (@init R _) /\
  current_ball_pan_ s' = current_ball_pan_ (@init R _) /\
  current_ball_tilt_ s' = current_ball_tilt_ (@init R _) /\
  current_ball_bottom_ s' = current_ball_bottom_ (@init R _).
Proof.
  exact (silent_until_a_command
           [Circles [Point.mk 0.5 0 10]; Tick (Time.mk 1 0); UseScan false;
            Tick (Time.mk 2 0)] init eq_refl eq_refl).
Defined.

(** [not_found_until_detection] on two periods after [start]. *)
Lemma not_found_after_start :
  tracking_status_
    (fst (run [Tick (Time.mk 1 0); Tick (Time.mk 2 0)]
            (startTracking (@init R _)))) = NotFound.
Proof.
  apply not_found_until_detection;
    [reflexivity|exact real_zero_le_zero|reflexivity].
Defined.

(** [found_then_lost]: a sighting, then five periods without detection. *)
Lemma found_then_lost_after_five :
  let s0 := set_ball_position_ (Point.mk 0 0 10) (startTracking (@init R _)) in
  tracking_status_
    (fst (run [Tick (Time.mk 2 0); Tick (Time.mk 3 0); Tick (Time.mk 4 0);
               Tick (Time.mk 5 0); Tick (Time.mk 6 0)]
            (snd (fst (processTracking (Time.mk 1 0) s0))))) = NotFound.
Proof.
  cbv zeta.
  apply (found_then_lost real_zero_le_zero).
  - reflexivity.
  - rewrite processTracking_found;
      [reflexivity|reflexivity|apply Rleb_false; cbn; lra].
  - reflexivity.
  - unfold WAITING_THRESHOLD. cbn. lia.
Defined.

(** [scan_every_51_periods] on the first 51 periods after [start]. *)
Lemma one_scan_in_51_periods :
  filter is_scan
    (snd (run (map Tick (repeat (Time.mk 1 0) 51))
            (startTracking (@init R _)))) = repeat ScanRequest 1 /\
  count_not_found_
    (fst (run (map Tick (repeat (Time.mk 1 0) 51))
            (startTracking (@init R _)))) = 0%Z.
Proof.
  apply (scan_every_51_periods real_zero_le_zero); reflexivity.
Defined.

(** [held_size_is_the_maximum] on two circles in either order. *)
Lemma two_circles_either_order :
  let s := @init R _ in
  let a := Point.mk 0.5 0 10 in
  let b := Point.mk 0 0.5 20 in
  let size cs := Point.z (ball_position_ (ballPositionCallback cs s)) in
  size [a; b] =
    fold_left Rmax (map (@Point.z R) [a; b]) (Point.z (ball_position_ s)) /\
  Point.z (ball_position_ s) <= size [a; b] /\
  size [b; a] = size [a; b].
Proof.
  exact (held_size_is_the_maximum init _ _
           (perm_swap (Point.mk 0 0.5 20) (Point.mk 0.5 0 10) [])).
Defined.

(** [raw_errors_within_field_of_view] on a first sighting. *)
Lemma first_sighting_within_field_of_view :
  let s := set_ball_position_ (Point.mk 0.5 0 10) (startTracking (@init R _)) in
  let s' := snd (fst (processTracking (Time.mk 1 0) s)) in
  Rabs (current_ball_pan_ s') <= FOV_WIDTH /\
  Rabs (current_ball_tilt_ s') <= FOV_HEIGHT.
Proof.
  apply raw_errors_within_field_of_view;
    [reflexivity|cbn; lra|cbn; lra|cbn; lra].
Defined.

(** [raw_errors_point_to_the_circle] on a first sighting to the right. *)
Lemma first_sighting_to_the_right :
  current_ball_pan_
    (snd (fst (processTracking (Time.mk 1 0)
                 (set_ball_position_ (Point.mk 0.5 0 10)
                    (startTracking (@init R _)))))) < 0.
Proof.
  assert (Hz : 0 < Point.z (ball_position_
                              (set_ball_position_ (Point.mk 0.5 0 10)
                                 (startTracking (@init R _)))))
    by (cbn; lra).
  apply (proj1 (raw_errors_point_to_the_circle (Time.mk 1 0)
                  (set_ball_position_ (Point.mk 0.5 0 10)
                     (startTracking (@init R _))) eq_refl Hz)).
  cbn. lra.
Defined.

(** [coasting_decays_the_memory] on two periods of coasting. *)
Lemma two_periods_of_coasting :
  let s := mkBallTracker true 0 true 0.2 0.1 5 Found (Point.mk 0.5 0 0)
             (Time.mk 1 0) in
  let s' := fst (run (map Tick [Time.mk 2 0; Time.mk 3 0]) s) in
  current_ball_pan_ s' = decay (decay 0.2) /\
  current_ball_tilt_ s' = decay (decay 0.1) /\
  current_ball_bottom_ s' = 5 /\
  prev_time_ s' = Time.mk 3 0.
Proof.
  apply (coasting_decays_the_memory real_zero_le_zero
           [Time.mk 2 0; Time.mk 3 0]
           (mkBallTracker true 0 true 0.2 0.1 5 Found (Point.mk 0.5 0 0)
              (Time.mk 1 0)));
    [reflexivity|reflexivity|discriminate|unfold WAITING_THRESHOLD; cbn; lia].
Defined.

End ExtraInstances.

(** ** Scanning switched off *)

Section ScanOffExtras.
Context {D : Type} {ops : DoubleOps D}.

Implicit Types (s : BallTracker D) (t : Time.t).

(** Only [setUsingHeadScan] writes [use_head_scan_]. *)
Lemma step_use_head_scan (e : Event) s :
  is_use_scan e = false ->
  use_head_scan_ (fst (step e s)) = use_head_scan_ s.
Proof.
  intros He.
  destruct e as [cs|data|b|t]; [| | |rewrite step_tick]; cbn [step fst snd].
  - reflexivity.
  - unfold ballTrackerCommandCallback, startTracking, stopTracking.
    destruct (String.eqb data "start"); [reflexivity|].
    destruct (String.eqb data "stop"); [reflexivity|].
    destruct (String.eqb data "toggle_start"); [|reflexivity].
    destruct (negb (on_tracking_ s)); reflexivity.
  - discriminate He.
  - apply processTracking_use_head_scan.
Qed.

(** X20.  After [setUsingHeadScan(false)], and until [setUsingHeadScan]
    is called again, no scan request is published, however long the ball
    stays lost. *)
Theorem no_scan_while_switched_off (es : list Event) s :
  forallb (fun e => negb (is_use_scan e)) es = true ->
  filter is_scan (snd (run es (setUsingHeadScan false s))) = [].
Proof.
  intros Hall.
  assert (Hoff : use_head_scan_ (setUsingHeadScan false s) = false)
    by reflexivity.
  revert Hoff. generalize (setUsingHeadScan false s). clear s.
  induction es as [|e es IH]; intros s Hoff; [reflexivity|].
  cbn [forallb] in Hall. apply andb_prop in Hall as [He Hes].
  apply negb_true_iff in He.
  rewrite run_cons. cbn [snd]. rewrite filter_app.
  rewrite (IH Hes) by (rewrite step_use_head_scan; assumption).
  rewrite app_nil_r.
  destruct e as [cs|data|b|t]; try discriminate He.
  - reflexivity.
  - destruct (step_other_count (Command data) s) as [_ H];
      [discriminate|exact H].
  - rewrite step_tick. cbn [snd].
    destruct (processTracking_scan t s) as [H _]. rewrite H, Hoff.
    rewrite andb_false_r. reflexivity.
Qed.

End ScanOffExtras.

Section ScanOffInstance.

(** [no_scan_while_switched_off] on sixty periods without the ball. *)
Lemma sixty_periods_without_scan :
  filter is_scan
    (snd (run (Command "start" :: repeat (Tick (Time.mk 1 0)) 60)
            (setUsingHeadScan false (@init R _)))) = [].
Proof.
  apply no_scan_while_switched_off. reflexivity.
Defined.

End ScanOffInstance.
